(** * Urban Heat Island dashboard: the view model and the application shell

    A shallow embedding of the front end of the UHI analysis system:
    the [UHIViewModel] class and the [App] component (state, handlers and
    effects) and the [MapView] component of [components/MapView.jsx]. *)

From Stdlib Require Import ZArith NArith QArith Qround List String Ascii Bool Lia.
From Stdlib Require Import DecimalString.
Import ListNotations.

Local Open Scope string_scope.
Local Open Scope Z_scope.

(** ** JavaScript values the program computes with *)

Module JS.

(** A JavaScript number is a binary64 value: not-a-number, one of the two
    infinities, or a finite value.  Every finite binary64 value is a rational
    and the relational operators compare finite values exactly, so a finite
    number is carried as its rational value (both zeros are [0]). *)
Inductive number : Type :=
| NaN
| PosInf
| NegInf
| Fin (q : Q).

Definition of_Z (z : Z) : number := Fin (inject_Z z).

(** [x < y] on numbers: false as soon as one side is [NaN]. *)
Definition lt (x y : number) : bool :=
  match x, y with
  | NaN, _ | _, NaN => false
  | PosInf, _ => false
  | _, NegInf => false
  | NegInf, _ => true
  | _, PosInf => true
  | Fin p, Fin q => match (p ?= q)%Q with Lt => true | _ => false end
  end.

(** [x > y] is [y < x]. *)
Definition gt (x y : number) : bool := lt y x.

(** [x === y] on numbers. *)
Definition strict_eq (x y : number) : bool :=
  match x, y with
  | PosInf, PosInf | NegInf, NegInf => true
  | Fin p, Fin q => Qeq_bool p q
  | _, _ => false
  end.

(** [s || d] on strings: the empty string is falsy. *)
Definition or_else (s d : string) : string :=
  match s with
  | EmptyString => d
  | _ => s
  end.

(** [Array.prototype.join] on an array of strings. *)
Fixpoint join (sep : string) (l : list string) : string :=
  match l with
  | [] => ""
  | [x] => x
  | x :: rest => x ++ sep ++ join sep rest
  end.

(** An exception value: the constructor that built it and its message. *)
Record exn : Type := mkExn { name : string; message : string }.

(** [new Error(msg)] *)
Definition Error (msg : string) : exn := mkExn "Error" msg.

(** The decimal text a template literal puts for a non-negative integer. *)
Definition decimal (n : N) : string := NilEmpty.string_of_uint (N.to_uint n).

(** A decoded JSON value the program hands on without looking inside.  Its
    numbers are numbers of the language: [response.json()] reads [1e999] as
    an infinity. *)
#[warnings="-register-all"]
Inductive json : Type :=
| JNull
| JBool (b : bool)
| JNum (x : number)
| JStr (s : string)
| JArr (items : list json)
| JObj (fields : list (string * json)).

(** [JSON.stringify(v, null, 2)], as the value its text denotes (what
    [JSON.parse] reads back from it): a finite number is written as it is,
    [NaN] and the infinities are written [null], arrays and objects are
    written element by element. *)
Fixpoint stringify (v : json) : json :=
  match v with
  | JNum (Fin q) => JNum (Fin q)
  | JNum _ => JNull
  | JArr items => JArr (map stringify items)
  | JObj fields => JObj (map (fun kv => (fst kv, stringify (snd kv))) fields)
  | _ => v
  end.

(** [o.key] on a decoded object; [None] is [undefined]. *)
Definition field (key : string) (v : json) : option json :=
  match v with
  | JObj fields =>
      match find (fun kv => String.eqb (fst kv) key) fields with
      | Some kv => Some (snd kv)
      | None => None
      end
  | _ => None
  end.

End JS.

Import JS.

(** ** The backend as the program sees it *)

Module Http.

(** One element of the point collection; the fields [MapView] reads. *)
Record SamplePoint : Type := mkPoint {
  lat : number;
  lon : number;
  zone : number;
  recommendation : string
}.

(** A point as the value [response.json()] decoded: an object with these
    fields. *)
Definition point_value (d : SamplePoint) : json :=
  JObj [("lat", JNum (lat d)); ("lon", JNum (lon d)); ("zone", JNum (zone d));
        ("recommendation", JStr (recommendation d))].

(** The body of the data endpoint:
    [{ success, data, statistics, error? }].  The program stores [data] and
    [statistics] without looking at them.  [data] is [None] in a body whose
    [data] is missing or [null] (the program tests no more than whether it is
    truthy); [statistics] is [None] in a body that has no [statistics], and
    [Some JNull] in one whose [statistics] is [null]. *)
Record payload : Type := mkPayload {
  success : bool;
  data : option (list SamplePoint);
  statistics : option json;
  error : option string
}.

(** A request: the path of the URL and its query parameters. *)
Record request : Type := mkRequest {
  url : string;
  query : list (string * number)
}.

(** A response: its status and what [response.json()] settles with. *)
Record response : Type := mkResponse {
  status : N;
  json_body : exn + payload
}.

(** [response.ok]: the status is in the range 200-299. *)
Definition ok (r : response) : bool :=
  ((200 <=? status r) && (status r <=? 299))%N.

(** How the promise of [fetch] settles: rejected (the network failed) or
    resolved with a response. *)
Inductive fetch_outcome : Type :=
| Rejected (e : exn)
| Resolved (r : response).

End Http.

Import Http.

(** ** Asynchronous functions

    A handler calls state setters and awaits [fetch].  It never reads the
    state: what it uses of it are the values its closure captured at the
    render, which the embedding passes as arguments.  A program is the tree of
    what it does next; [U] is the type of the state updates it may ask for. *)

Module Async.

Section Prog.
Context {U : Type}.

Inductive prog (A : Type) : Type :=
| Return (a : A)
| Throw (e : exn)
| Update (u : U) (k : prog A)
| Fetch (req : request) (k : fetch_outcome -> prog A).

Arguments Return {A} a.
Arguments Throw {A} e.
Arguments Update {A} u k.
Arguments Fetch {A} req k.

Fixpoint bind {A B} (p : prog A) (f : A -> prog B) : prog B :=
  match p with
  | Return a => f a
  | Throw e => Throw e
  | Update u k => Update u (bind k f)
  | Fetch req k => Fetch req (fun o => bind (k o) f)
  end.

(** [try { p } catch (e) { h e }] *)
Fixpoint try_catch {A} (p : prog A) (h : exn -> prog A) : prog A :=
  match p with
  | Return a => Return a
  | Throw e => h e
  | Update u k => Update u (try_catch k h)
  | Fetch req k => Fetch req (fun o => try_catch (k o) h)
  end.

(** [try { p } finally { f }]: [f] runs however [p] ends, and the way [p]
    ended stands unless [f] throws. *)
Fixpoint try_finally {A} (p : prog A) (f : prog unit) : prog A :=
  match p with
  | Return a => bind f (fun _ => Return a)
  | Throw e => bind f (fun _ => Throw e)
  | Update u k => Update u (try_finally k f)
  | Fetch req k => Fetch req (fun o => try_finally (k o) f)
  end.

(** [await fetch(req)] *)
Definition fetch (req : request) : prog response :=
  Fetch req (fun o =>
    match o with
    | Rejected e => Throw e
    | Resolved r => Return r
    end).

(** [await response.json()]: settles with the body of the response, which
    the environment delivered together with the response. *)
Definition json_of (r : response) : prog payload :=
  match json_body r with
  | inl e => Throw e
  | inr p => Return p
  end.

Definition set (u : U) : prog unit := Update u (Return tt).

(** The updates a program asks for before it first awaits or ends. *)
Fixpoint updates {A} (p : prog A) : list U :=
  match p with
  | Update u k => u :: updates k
  | _ => []
  end.

(** The request a program first awaits, with the rest of the program. *)
Fixpoint awaits {A} (p : prog A) : option (request * (fetch_outcome -> prog A)) :=
  match p with
  | Update _ k => awaits k
  | Fetch req k => Some (req, k)
  | _ => None
  end.

(** How a program that does not await ends: [None] while it awaits. *)
Fixpoint result {A} (p : prog A) : option (exn + A) :=
  match p with
  | Return a => Some (inr a)
  | Throw e => Some (inl e)
  | Update _ k => result k
  | Fetch _ _ => None
  end.

End Prog.

Arguments prog : clear implicits.
Arguments Return {U A} a.
Arguments Throw {U A} e.
Arguments Update {U A} u k.
Arguments Fetch {U A} req k.

Declare Scope prog_scope.
Delimit Scope prog_scope with prog.
Notation "x <- p ;; q" := (bind p (fun x => q))
  (at level 61, p at next level, right associativity) : prog_scope.
Notation "p ;; q" := (bind p (fun _ => q))
  (at level 61, right associativity) : prog_scope.

End Async.

Import Async.
Local Open Scope prog_scope.

(** ** The view model: parameter validation *)

Module UHIViewModel.

Definition msg_points : string := "Number of points must be between 10 and 500".
Definition msg_days : string := "Days back must be between 7 and 90".

(** [validateParameters(numPoints, daysBack)]: [errors.push] appends. *)
Definition validateParameters (numPoints daysBack : number) : list string :=
  let errors := [] in
  let errors :=
    if lt numPoints (of_Z 10) || gt numPoints (of_Z 500)
    then (errors ++ [msg_points])%list else errors in
  let errors :=
    if lt daysBack (of_Z 7) || gt daysBack (of_Z 90)
    then (errors ++ [msg_days])%list else errors in
  errors.

(** An instance: [this.apiBaseUrl]. *)
Record t : Type := mk { apiBaseUrl : string }.

(** The constructor; [env_url] is [import.meta.env.VITE_API_URL]. *)
Definition new (env_url : option string) : t :=
  let base := or_else (match env_url with Some u => u | None => "" end)
                      "http://127.0.0.1:5000" in
  mk (base ++ "/api/analyze").

Section Methods.
Context {U : Type}.

(** [fetchUHIData(numPoints = 100, daysBack = 30)]: an argument left out
    is [None]. *)
Definition fetchUHIData (this : t) (numPoints daysBack : option number)
  : prog U payload :=
  let numPoints := match numPoints with Some n => n | None => of_Z 100 end in
  let daysBack := match daysBack with Some d => d | None => of_Z 30 end in
  response <- fetch (mkRequest (apiBaseUrl this ++ "/uhi")
                               [("points", numPoints); ("days", daysBack)]) ;;
  if negb (ok response)
  then Throw (Error ("HTTP error! status: " ++ decimal (status response)))
  else
    result <- json_of response ;;
    if negb (success result)
    then Throw (Error (or_else (match error result with
                                | Some e => e
                                | None => ""
                                end) "API returned error"))
    else Return result.

(** [checkHealth()] *)
Definition checkHealth (this : t) : prog U bool :=
  try_catch
    (response <- fetch (mkRequest (apiBaseUrl this ++ "/health") []) ;;
     Return (ok response))
    (fun _ => Return false).

End Methods.

End UHIViewModel.

(** ** The clock and [Date.prototype.toISOString] *)

Module Date.

(** A time value: milliseconds since the epoch, UTC. *)
Definition time : Type := Z.

Definition msPerDay : Z := 86400000.

(** The civil date (year, month, day) of a day number counted from
    1970-01-01, in the proleptic Gregorian calendar. *)
Definition civil (day : Z) : Z * Z * Z :=
  let z := day + 719468 in
  let era := z / 146097 in
  let doe := z - era * 146097 in
  let yoe := (doe - doe / 1460 + doe / 36524 - doe / 146096) / 365 in
  let doy := doe - (365 * yoe + yoe / 4 - yoe / 100) in
  let mp := (5 * doy + 2) / 153 in
  let d := doy - (153 * mp + 2) / 5 + 1 in
  let m := if mp <? 10 then mp + 3 else mp - 9 in
  let y := yoe + era * 400 + (if m <=? 2 then 1 else 0) in
  (y, m, d).

Definition digit (d : Z) : ascii := ascii_of_nat (48 + Z.to_nat d).

(** The last [width] decimal digits of [n], zero-padded. *)
Fixpoint pad (width : nat) (n : Z) : string :=
  match width with
  | O => ""
  | S w => pad w (n / 10) ++ String (digit (n mod 10)) ""
  end.

(** Four digits for the years 0 to 9999, else a sign and six digits. *)
Definition year_text (y : Z) : string :=
  if (0 <=? y) && (y <=? 9999) then pad 4 y
  else (if y <? 0 then "-" else "+") ++ pad 6 (Z.abs y).

(** [new Date(t).toISOString()]: [YYYY-MM-DDTHH:mm:ss.sssZ]. *)
Definition toISOString (t : time) : string :=
  let day := t / msPerDay in
  let ms := t mod msPerDay in
  let '(y, m, d) := civil day in
  year_text y ++ "-" ++ pad 2 m ++ "-" ++ pad 2 d ++ "T"
    ++ pad 2 (ms / 3600000) ++ ":" ++ pad 2 (ms / 60000 mod 60) ++ ":"
    ++ pad 2 (ms / 1000 mod 60) ++ "." ++ pad 3 (ms mod 1000) ++ "Z".

(** [s.split(c)[0]]: what comes before the first [c]. *)
Fixpoint before (c : ascii) (s : string) : string :=
  match s with
  | EmptyString => ""
  | String a rest => if Ascii.eqb a c then "" else String a (before c rest)
  end.

End Date.

(** ** The application shell: the [App] component *)

Module App.

(** [selectedZone]: ["all"] or a zone handed up by the legend. *)
Inductive zone_filter : Type :=
| AllZones
| OnlyZone (z : number).

(** The state hooks of the component, in the order of the source.
    [uhiData] is [None] while it is [null] or [undefined]; [statistics] is
    [Some JNull] while it is [null] and [None] while it is [undefined],
    which [JSON.stringify] tells apart. *)
Record state : Type := mkState {
  showHeader : bool;
  uhiData : option (list SamplePoint);
  statistics : option json;
  loading : bool;
  error : option string;
  backendHealthy : bool;
  numPoints : number;
  daysBack : number;
  selectedZone : zone_filter;
  selectedPoint : option SamplePoint;
  showHeatmap : bool;
  activeView : string
}.

(** The arguments of the [useState] calls. *)
Definition initial : state :=
  {| showHeader := true;
     uhiData := None;
     statistics := Some JNull;
     loading := true;
     error := None;
     backendHealthy := false;
     numPoints := of_Z 100;
     daysBack := of_Z 30;
     selectedZone := AllZones;
     selectedPoint := None;
     showHeatmap := false;
     activeView := "map" |}.

(** A call of one of the state setters. *)
Inductive update : Type :=
| setShowHeader (v : bool)
| setUhiData (v : option (list SamplePoint))
| setStatistics (v : option json)
| setLoading (v : bool)
| setError (v : option string)
| setBackendHealthy (v : bool)
| setNumPoints (v : number)
| setDaysBack (v : number)
| setSelectedZone (v : zone_filter)
| setSelectedPoint (v : option SamplePoint)
| setShowHeatmap (v : bool)
| setActiveView (v : string).

(** What a setter call does to the state. *)
Definition apply (u : update) (s : state) : state :=
  let '(mkState sh ud st lo er bh np db sz sp hm av) := s in
  match u with
  | setShowHeader v => mkState v ud st lo er bh np db sz sp hm av
  | setUhiData v => mkState sh v st lo er bh np db sz sp hm av
  | setStatistics v => mkState sh ud v lo er bh np db sz sp hm av
  | setLoading v => mkState sh ud st v er bh np db sz sp hm av
  | setError v => mkState sh ud st lo v bh np db sz sp hm av
  | setBackendHealthy v => mkState sh ud st lo er v np db sz sp hm av
  | setNumPoints v => mkState sh ud st lo er bh v db sz sp hm av
  | setDaysBack v => mkState sh ud st lo er bh np v sz sp hm av
  | setSelectedZone v => mkState sh ud st lo er bh np db v sp hm av
  | setSelectedPoint v => mkState sh ud st lo er bh np db sz v hm av
  | setShowHeatmap v => mkState sh ud st lo er bh np db sz sp v av
  | setActiveView v => mkState sh ud st lo er bh np db sz sp hm v
  end.

Definition handler : Type := prog update unit.

Section Handlers.
Variable viewModel : UHIViewModel.t.

(** [checkBackendHealth] *)
Definition checkBackendHealth : handler :=
  healthy <- UHIViewModel.checkHealth viewModel ;;
  set (setBackendHealthy healthy) ;;
  if negb healthy
  then
    set (setError (Some "Backend server is not responding. Please try again later.")) ;;
    set (setLoading false)
  else Return tt.

(** [loadUHIData]; [numPoints] and [daysBack] are the values of the render
    whose closure runs.  The [return] inside [try] leaves through
    [finally]; the call of [console.error] changes nothing here. *)
Definition loadUHIData (numPoints daysBack : number) : handler :=
  set (setLoading true) ;;
  set (setError None) ;;
  try_finally
    (try_catch
       (let errors := UHIViewModel.validateParameters numPoints daysBack in
        if (0 <? List.length errors)%nat
        then
          set (setError (Some (join ". " errors))) ;;
          set (setLoading false)
        else
          result <- UHIViewModel.fetchUHIData viewModel
                      (Some numPoints) (Some daysBack) ;;
          set (setUhiData (Http.data result)) ;;
          set (setStatistics (Http.statistics result)))
       (fun err =>
          set (setError (Some (or_else (message err) "Failed to load UHI data")))))
    (set (setLoading false)).

Definition handleRefresh (s : state) : handler :=
  loadUHIData (numPoints s) (daysBack s).
Definition handleApplyFilters (s : state) : handler :=
  loadUHIData (numPoints s) (daysBack s).
Definition handleZoneFilter (zone : zone_filter) : handler :=
  set (setSelectedZone zone).
Definition handlePointClick (point : option SamplePoint) : handler :=
  set (setSelectedPoint point).

(** The effect on [[backendHealthy]]: it runs after the first render and
    after every render in which [backendHealthy] differs from the render
    before. *)
Definition effect_backendHealthy (s : state) : handler :=
  if backendHealthy s then loadUHIData (numPoints s) (daysBack s)
  else Return tt.

End Handlers.

(** [handleScroll]: the updates, and the new value of [lastScrollY]. *)
Definition handleScroll (lastScrollY currentScrollY : number) : handler * number :=
  if lt currentScrollY (of_Z 20)
  then (set (setShowHeader true), currentScrollY)
  else
    (if lt currentScrollY lastScrollY
     then set (setShowHeader true)
     else set (setShowHeader false),
     currentScrollY).

Module Artifact.

(** The file offered for download: its name and the JSON value its text
    denotes. *)
Record download : Type := mkDownload {
  filename : string;
  content : json
}.

End Artifact.

(** [handleExportData]; [now1] and [now2] are what the two [new Date()]
    read.  It calls no setter.  [JSON.stringify] leaves out a property whose
    value is [undefined]. *)
Definition handleExportData (now1 now2 : Date.time) (s : state)
  : option Artifact.download :=
  match uhiData s with
  | None => None
  | Some d =>
      let dataStr :=
        stringify
          (JObj ([("data", JArr (map point_value d))]
                 ++ match statistics s with
                    | Some st => [("statistics", st)]
                    | None => []
                    end
                 ++ [("exportedAt", JStr (Date.toISOString now1))])%list) in
      Some {| Artifact.filename := "uhi-analysis-"
                ++ Date.before "T" (Date.toISOString now2) ++ ".json";
              Artifact.content := dataStr |}
  end.

End App.

(** ** The map renderer: [components/MapView.jsx] *)

Module MapView.

Definition TOKEN : string := "YOUR_MAPBOX_TOKEN".

(** What [App] passes: [data], [selectedZone] and [showHeatmap]
    ([onPointClick] is a function, never called here). *)
Record props : Type := mkProps {
  data : option (list SamplePoint);
  selectedZone : App.zone_filter;
  showHeatmap : bool
}.

(** The state hook [data] starts as the empty array; the effect of the
    mount fetches this URL and stores the decoded body with [setData]. *)
Definition initial_data : list SamplePoint := [].
Definition mount_request : request :=
  mkRequest "http://localhost:5000/api/uhi" [].

(** A [Marker] with the [div] inside it. *)
Record marker : Type := mkMarker {
  key : nat;
  latitude : number;
  longitude : number;
  background : string;
  title : string
}.

Definition marker_of (i : nat) (d : SamplePoint) : marker :=
  {| key := i;
     latitude := lat d;
     longitude := lon d;
     background :=
       if strict_eq (zone d) (of_Z 2) then "red"
       else if strict_eq (zone d) (of_Z 1) then "orange" else "green";
     title := recommendation d |}.

(** [data.map((d, i) => ...)], from index [i]. *)
Fixpoint map_from (i : nat) (data : list SamplePoint) : list marker :=
  match data with
  | [] => []
  | d :: rest => marker_of i d :: map_from (S i) rest
  end.

(** The markers [MapView] returns.  The function declares no parameter:
    the props are not read, the list is the one of its own state. *)
Definition render (_ : props) (data : list SamplePoint) : list marker :=
  map_from 0 data.

End MapView.

(** ** The shell as a machine: events of the browser and of the network *)

Module Shell.

(** The component between two events: its state, the awaits of its own
    handlers that are pending (the request and the rest of the handler), the
    requests it issued through its view model so far, the files offered so
    far, the clock [new Date()] reads, [lastScrollY] of the scroll listener,
    and the requests issued so far by the [MapView] instances it mounted. *)
Record config : Type := mkConfig {
  ui : App.state;
  inflight : list (request * (fetch_outcome -> App.handler));
  netlog : list request;
  downloads : list App.Artifact.download;
  clock : Date.time;
  lastScrollY : number;
  maplog : list request
}.

Inductive event : Type :=
| Deliver (i : nat) (o : fetch_outcome)   (* the [i]-th pending fetch settles *)
| Tick (ms : Z)                           (* the clock moves: time passes, or it is set *)
| Scroll (scrollY : number)
| ClickRefresh
| ClickApply
| ClickExport (lag : Z)                   (* the clock moves by [lag] between the two [new Date()] *)
| SlideNumPoints (v : number)             (* [parseInt(e.target.value)] *)
| SlideDaysBack (v : number)
| ToggleHeatmap (checked : bool)
| DismissError
| ClickMapTab
| ClickAnalyticsTab
| ZoneFilter (zone : App.zone_filter)     (* the legend calls [onZoneFilter] *)
| PointClick (point : option SamplePoint) (* a child calls [onPointClick] *).

Definition with_ui (s : App.state) (c : config) : config :=
  mkConfig s (inflight c) (netlog c) (downloads c) (clock c) (lastScrollY c)
           (maplog c).

Fixpoint drop_nth {A} (i : nat) (l : list A) : list A :=
  match l, i with
  | [], _ => []
  | _ :: rest, O => rest
  | x :: rest, S j => x :: drop_nth j rest
  end.

(** Running a handler until it ends or awaits: the updates it asked for
    are committed together, in order, before the next render (the setter
    calls of one run are batched); an await is recorded with the rest of the
    handler.  An exception that leaves a handler is dropped. *)
Fixpoint run (p : App.handler) (c : config) : config :=
  match p with
  | Return _ | Throw _ => c
  | Update u k => run k (with_ui (App.apply u (ui c)) c)
  | Fetch req k =>
      mkConfig (ui c) (inflight c ++ [(req, k)]) (netlog c ++ [req])
               (downloads c) (clock c) (lastScrollY c) (maplog c)
  end.

Definition is_truthy (e : option string) : bool :=
  match e with
  | Some (String _ _) => true
  | _ => false
  end.

Definition has_data (s : App.state) : bool :=
  match App.uhiData s with Some _ => true | None => false end.

(** The main content holds a [MapView]: not loading, [uhiData] truthy and
    [activeView === "map"]. *)
Definition shows_map (s : App.state) : bool :=
  negb (App.loading s) && has_data s && String.eqb (App.activeView s) "map".

(** The render after a batch of updates, [before] being the state of the
    render before it: a [MapView] that was not there is mounted, and the
    effect of its mount issues its GET. *)
Definition render (before : App.state) (c : config) : config :=
  if negb (shows_map before) && shows_map (ui c)
  then mkConfig (ui c) (inflight c) (netlog c) (downloads c) (clock c)
                (lastScrollY c) (maplog c ++ [MapView.mount_request])
  else c.

Section Machine.
Variable viewModel : UHIViewModel.t.

(** A handler runs, the component renders again, and the effect on
    [[backendHealthy]] runs if that value changed, with a render after
    it. *)
Definition dispatch (h : App.handler) (c : config) : config :=
  let c' := render (ui c) (run h c) in
  if Bool.eqb (App.backendHealthy (ui c)) (App.backendHealthy (ui c'))
  then c'
  else render (ui c') (run (App.effect_backendHealthy viewModel (ui c')) c').

(** After the first render, which shows the spinner: the effects of the
    mount have run. *)
Definition mounted (scrollY : number) (now : Date.time) : config :=
  let c0 := mkConfig App.initial [] [] [] now scrollY [] in
  let c1 := run (App.checkBackendHealth viewModel) c0 in
  run (App.effect_backendHealthy viewModel App.initial) c1.

(** One event.  A control of the shell that is disabled, or not rendered,
    in the current state does not fire; the callbacks handed to the children
    may be called in any state. *)
Definition step (c : config) (e : event) : config :=
  let s := ui c in
  match e with
  | Deliver i o =>
      match nth_error (inflight c) i with
      | None => c
      | Some (_, k) =>
          dispatch (k o)
            (mkConfig s (drop_nth i (inflight c)) (netlog c)
                      (downloads c) (clock c) (lastScrollY c) (maplog c))
      end
  | Tick ms =>
      mkConfig s (inflight c) (netlog c) (downloads c)
               (clock c + ms) (lastScrollY c) (maplog c)
  | Scroll y =>
      let '(h, last) := App.handleScroll (lastScrollY c) y in
      let c' := dispatch h c in
      mkConfig (ui c') (inflight c') (netlog c') (downloads c') (clock c') last
               (maplog c')
  | ClickRefresh =>
      if App.loading s || negb (App.backendHealthy s) then c
      else dispatch (App.handleRefresh viewModel s) c
  | ClickApply =>
      if App.loading s || negb (App.backendHealthy s) then c
      else dispatch (App.handleApplyFilters viewModel s) c
  | ClickExport lag =>
      match App.handleExportData (clock c) (clock c + lag) s with
      | None => c
      | Some file =>
          mkConfig s (inflight c) (netlog c) (downloads c ++ [file])
                   (clock c + lag) (lastScrollY c) (maplog c)
      end
  | SlideNumPoints v =>
      if App.loading s then c else dispatch (set (App.setNumPoints v)) c
  | SlideDaysBack v =>
      if App.loading s then c else dispatch (set (App.setDaysBack v)) c
  | ToggleHeatmap b =>
      if App.loading s || negb (has_data s) then c
      else dispatch (set (App.setShowHeatmap b)) c
  | DismissError =>
      if is_truthy (App.error s) then dispatch (set (App.setError None)) c
      else c
  | ClickMapTab =>
      if App.loading s || negb (has_data s) then c
      else dispatch (set (App.setActiveView "map")) c
  | ClickAnalyticsTab =>
      if App.loading s || negb (has_data s) then c
      else dispatch (set (App.setActiveView "analytics")) c
  | ZoneFilter zone => dispatch (App.handleZoneFilter zone) c
  | PointClick point => dispatch (App.handlePointClick point) c
  end.

Definition steps (c : config) (evs : list event) : config :=
  fold_left step evs c.

End Machine.

End Shell.

(** ** The vocabulary of the specification *)

(** [within lo hi x]: [x] is a number of the closed interval [[lo, hi]]. *)
Definition within (lo hi : Z) (x : number) : Prop :=
  match x with
  | Fin q => (inject_Z lo <= q)%Q /\ (q <= inject_Z hi)%Q
  | _ => False
  end.

Definition withinb (lo hi : Z) (x : number) : bool :=
  match x with
  | Fin q => Qle_bool (inject_Z lo) q && Qle_bool q (inject_Z hi)
  | _ => false
  end.

Definition is_NaN (x : number) : bool :=
  match x with NaN => true | _ => false end.

(** [Number.isInteger] *)
Definition is_integer (x : number) : bool :=
  match x with
  | Fin q => Qeq_bool q (inject_Z (Qfloor q))
  | _ => false
  end.

(** The messages the specification asks of [validateParameters]: one for
    each parameter that is outside its range, nothing across the two. *)
Definition expected_messages (numPoints daysBack : number) : list string :=
  ((if withinb 10 500 numPoints then [] else [UHIViewModel.msg_points])
   ++ (if withinb 7 90 daysBack then [] else [UHIViewModel.msg_days]))%list.

(** The request of [fetchUHIData] and the one of [checkHealth]. *)
Definition uhi_request (vm : UHIViewModel.t) (numPoints daysBack : number) : request :=
  mkRequest (UHIViewModel.apiBaseUrl vm ++ "/uhi")
            [("points", numPoints); ("days", daysBack)].

Definition health_request (vm : UHIViewModel.t) : request :=
  mkRequest (UHIViewModel.apiBaseUrl vm ++ "/health") [].

(** How an asynchronous function ends once its first await settled with [o]. *)
Definition ends_with {U A} (p : prog U A) (o : fetch_outcome) : option (exn + A) :=
  match awaits p with
  | Some (_, k) => result (k o)
  | None => None
  end.

(** The three kinds of answer of the data endpoint the specification names:
    a response whose status is not a success, a decoded payload whose
    [success] flag is false, and a payload that is handed on. *)
Definition http_failure (o : fetch_outcome) : bool :=
  match o with
  | Resolved r => negb (ok r)
  | Rejected _ => false
  end.

Definition api_failure (o : fetch_outcome) : bool :=
  match o with
  | Resolved r =>
      ok r && match json_body r with
              | inr pl => negb (success pl)
              | inl _ => false
              end
  | Rejected _ => false
  end.

Definition loaded_payload (o : fetch_outcome) : option payload :=
  match o with
  | Resolved r =>
      if ok r then
        match json_body r with
        | inr pl => if success pl then Some pl else None
        | inl _ => None
        end
      else None
  | Rejected _ => None
  end.

(** C2 reads the two failures as values of two error types: whatever the
    view model and the arguments, an error thrown for a status that is not a
    success and one thrown for [success: false] differ in their type. *)
Definition distinguishable_failures : Prop :=
  forall (vm : UHIViewModel.t) (n d : option number) (o1 o2 : fetch_outcome)
         (e1 e2 : exn),
    http_failure o1 = true ->
    api_failure o2 = true ->
    ends_with (UHIViewModel.fetchUHIData (U := unit) vm n d) o1 = Some (inl e1) ->
    ends_with (UHIViewModel.fetchUHIData (U := unit) vm n d) o2 = Some (inl e2) ->
    name e1 <> name e2.

(** The state after a batch of setter calls. *)
Definition commit (us : list App.update) (s : App.state) : App.state :=
  fold_left (fun s u => App.apply u s) us s.

(** The state a handler leaves when it ends or awaits. *)
Definition settle (p : App.handler) (s : App.state) : App.state :=
  commit (updates p) s.

(** The states of the load cycle. *)
Definition Loading (s : App.state) : Prop :=
  App.loading s = true.

Definition Failed (msg : string) (s : App.state) : Prop :=
  App.loading s = false /\ App.error s = Some msg.

Definition Loaded (d : option (list SamplePoint)) (st : option json)
  (s : App.state) : Prop :=
  App.loading s = false /\ App.uhiData s = d /\ App.statistics s = st.

(** The rest of [loadUHIData] after its await, and the rest of
    [checkBackendHealth] after its await (neither depends on the
    parameters of the call). *)
Definition pending_load (vm : UHIViewModel.t) : fetch_outcome -> App.handler :=
  match awaits (App.loadUHIData vm (of_Z 100) (of_Z 30)) with
  | Some (_, k) => k
  | None => fun _ => Return tt
  end.

Definition pending_health (vm : UHIViewModel.t) : fetch_outcome -> App.handler :=
  match awaits (App.checkBackendHealth vm) with
  | Some (_, k) => k
  | None => fun _ => Return tt
  end.

(** The message the shell stores when the fetch of a load cycle did not
    bring a payload. *)
Definition failure_message (o : fetch_outcome) : string :=
  match o with
  | Rejected e => or_else (message e) "Failed to load UHI data"
  | Resolved r =>
      if ok r then
        match json_body r with
        | inl e => or_else (message e) "Failed to load UHI data"
        | inr pl =>
            match Http.error pl with
            | Some (String a m) => String a m
            | _ => "API returned error"
            end
        end
      else "HTTP error! status: " ++ decimal (status r)
  end.

(** The setter calls that store a part of the displayed pair. *)
Definition stores_data (u : App.update) : bool :=
  match u with
  | App.setUhiData _ | App.setStatistics _ => true
  | _ => false
  end.

(** A request to the data endpoint of the view model. *)
Definition is_data_request (vm : UHIViewModel.t) (req : request) : bool :=
  String.eqb (url req) (UHIViewModel.apiBaseUrl vm ++ "/uhi").

(** The payload an event loads: the event delivers, to a pending request to
    the data endpoint, a successful response whose payload has [success]. *)
Definition loads (vm : UHIViewModel.t) (c : Shell.config) (e : Shell.event)
  : option payload :=
  match e with
  | Shell.Deliver i o =>
      match nth_error (Shell.inflight c) i with
      | Some (req, _) => if is_data_request vm req then loaded_payload o else None
      | None => None
      end
  | _ => None
  end.

(** The last successful load of a run, with the time of the clock when its
    response arrived; [last] is the one before the run, if any. *)
Fixpoint last_load (vm : UHIViewModel.t) (c : Shell.config) (evs : list Shell.event)
  (last : option (Date.time * payload)) : option (Date.time * payload) :=
  match evs with
  | [] => last
  | e :: rest =>
      last_load vm (Shell.step vm c e) rest
        (match loads vm c e with
         | Some pl => Some (Shell.clock c, pl)
         | None => last
         end)
  end.

(** Every pending await is the one of the health check or the one of a load
    cycle. *)
Definition pending_known (vm : UHIViewModel.t) (c : Shell.config) : Prop :=
  Forall (fun rk =>
            rk = (health_request vm, pending_health vm)
            \/ exists n d, rk = (uhi_request vm n d, pending_load vm))
         (Shell.inflight c).

(** The displayed pair is the one of the last successful load; before the
    first, both parts are [null]. *)
Definition shows_last_load (c : Shell.config) (last : option (Date.time * payload))
  : Prop :=
  match last with
  | None =>
      App.uhiData (Shell.ui c) = None
      /\ App.statistics (Shell.ui c) = Some JNull
  | Some (_, pl) =>
      App.uhiData (Shell.ui c) = Http.data pl
      /\ App.statistics (Shell.ui c) = Http.statistics pl
  end.

(** The requests of the [MapView] a render mounts: its GET when the render
    shows a map and the render before it did not. *)
Definition mounts (before after : App.state) : list request :=
  if negb (Shell.shows_map before) && Shell.shows_map after
  then [MapView.mount_request]
  else [].


(** *** The exported document as the specification reads it *)


(** The points of a payload as the array the response carried. *)
Definition points_value (d : list SamplePoint) : json :=
  JArr (map point_value d).


(** *** The map renderer as the specification reads it *)

(** A point is outside the filter when a zone is selected and it is not the
    zone of the point. *)
Definition passes (sel : App.zone_filter) (d : SamplePoint) : bool :=
  match sel with
  | App.AllZones => true
  | App.OnlyZone z => strict_eq (zone d) z
  end.

(** A marker for a point: at its coordinate, with its recommendation as
    tooltip, red for zone 2, orange for zone 1 and green for zone 0. *)
Definition marks (m : MapView.marker) (d : SamplePoint) : Prop :=
  MapView.latitude m = lat d
  /\ MapView.longitude m = lon d
  /\ MapView.title m = recommendation d
  /\ (strict_eq (zone d) (of_Z 2) = true -> MapView.background m = "red")
  /\ (strict_eq (zone d) (of_Z 1) = true -> MapView.background m = "orange")
  /\ (strict_eq (zone d) (of_Z 0) = true -> MapView.background m = "green").

(** C7 as stated: the markers are, one for one and in order, the points of
    the collection that pass the selected-zone filter. *)
Definition renders_filtered_points : Prop :=
  forall (props : MapView.props) (points : list SamplePoint),
    Forall2 marks (MapView.render props points)
            (filter (passes (MapView.selectedZone props)) points).

(** *** Timestamps as the specification reads them *)

(** The date part of the ISO text of a time. *)
Definition iso_date (t : Date.time) : string :=
  let '(y, m, d) := Date.civil (t / Date.msPerDay) in
  Date.year_text y ++ "-" ++ Date.pad 2 m ++ "-" ++ Date.pad 2 d.

(** The time values a [Date] can hold: 100,000,000 days either side of the
    epoch. *)
Definition valid_time (t : Date.time) : Prop :=
  -8640000000000000 <= t <= 8640000000000000.

(** The day number of a civil date, the inverse of [Date.civil]. *)
Definition days_from_civil (y m d : Z) : Z :=
  let y' := if m <=? 2 then y - 1 else y in
  let era := y' / 400 in
  let yoe := y' - era * 400 in
  let mp := if 2 <? m then m - 3 else m + 9 in
  let doy := (153 * mp + 2) / 5 + d - 1 in
  let doe := yoe * 365 + yoe / 4 - yoe / 100 + doy in
  era * 146097 + doe - 719468.

Definition digit_value (a : ascii) : option Z :=
  let n := nat_of_ascii a in
  if ((48 <=? n) && (n <=? 57))%nat then Some (Z.of_nat (n - 48)) else None.

(** Reads [width] decimal digits. *)
Fixpoint read_digits (width : nat) (acc : Z) (s : string) : option (Z * string) :=
  match width with
  | O => Some (acc, s)
  | S w =>
      match s with
      | String a rest =>
          match digit_value a with
          | Some v => read_digits w (acc * 10 + v) rest
          | None => None
          end
      | EmptyString => None
      end
  end.

Definition expect (c : ascii) (s : string) : option string :=
  match s with
  | String a rest => if Ascii.eqb a c then Some rest else None
  | EmptyString => None
  end.

Definition read_year (s : string) : option (Z * string) :=
  match s with
  | String "+" rest => read_digits 6 0 rest
  | String "-" rest =>
      match read_digits 6 0 rest with
      | Some (y, rest') => if y =? 0 then None else Some (- y, rest')
      | None => None
      end
  | _ => read_digits 4 0 s
  end.

Definition is_leap (y : Z) : bool :=
  (y mod 4 =? 0) && (negb (y mod 100 =? 0) || (y mod 400 =? 0)).

Definition days_in_month (y m : Z) : Z :=
  if m =? 2 then (if is_leap y then 29 else 28)
  else if (m =? 4) || (m =? 6) || (m =? 9) || (m =? 11) then 30 else 31.

(** A valid ISO-8601 timestamp in the complete form with milliseconds and
    the UTC designator, [YYYY-MM-DDTHH:mm:ss.sssZ] or with an expanded year
    [+YYYYYY] or [-YYYYYY], and the time it denotes: the fields are read and
    checked (a month of the year, a day of that month, an hour of the day, a
    minute, a second). *)
Definition parse_iso (s : string) : option Date.time :=
  match read_year s with
  | None => None
  | Some (y, s) =>
  match expect "-" s with None => None | Some s =>
  match read_digits 2 0 s with None => None | Some (m, s) =>
  match expect "-" s with None => None | Some s =>
  match read_digits 2 0 s with None => None | Some (d, s) =>
  match expect "T" s with None => None | Some s =>
  match read_digits 2 0 s with None => None | Some (h, s) =>
  match expect ":" s with None => None | Some s =>
  match read_digits 2 0 s with None => None | Some (mi, s) =>
  match expect ":" s with None => None | Some s =>
  match read_digits 2 0 s with None => None | Some (sec, s) =>
  match expect "." s with None => None | Some s =>
  match read_digits 3 0 s with None => None | Some (ms, s) =>
  match s with
  | "Z" =>
      if (1 <=? m) && (m <=? 12) && (1 <=? d) && (d <=? days_in_month y m)
         && (h <=? 23) && (mi <=? 59) && (sec <=? 59)
      then Some (days_from_civil y m d * Date.msPerDay
                 + h * 3600000 + mi * 60000 + sec * 1000 + ms)
      else None
  | _ => None
  end end end end end end end end end end end end end
  end.

(** *** A session used to run the definitions

    The health check succeeds; the first load, with 100 points and 30 days,
    brings three points of the zones 0, 1 and 2; a minute later the user
    refreshes and the backend answers 500. *)

Definition sample_vm : UHIViewModel.t := UHIViewModel.new None.

Definition sample_points : list SamplePoint :=
  [ mkPoint (Fin (203 # 10)) (Fin (858 # 10)) (of_Z 0) "Maintain green cover";
    mkPoint (Fin (2031 # 100)) (Fin (8582 # 100)) (of_Z 1) "Plant street trees";
    mkPoint (Fin (2029 # 100)) (Fin (8583 # 100)) (of_Z 2) "Install cool roofs" ].

Definition sample_statistics : json :=
  JObj [("zone_counts",
         JObj [("0", JNum (of_Z 1)); ("1", JNum (of_Z 1)); ("2", JNum (of_Z 1))])].

Definition sample_payload : payload :=
  mkPayload true (Some sample_points) (Some sample_statistics) None.


(** A payload with [success] and no [data]. *)
Definition dataless_payload : payload :=
  mkPayload true None (Some sample_statistics) None.

Definition sample_start : Shell.config :=
  Shell.mounted sample_vm (of_Z 0) 1767225600000.

Definition sample_session : list Shell.event :=
  [ Shell.Deliver 0 (Resolved (mkResponse 200 (inl (mkExn "SyntaxError" ""))));
    Shell.Tick 12000;
    Shell.Deliver 0 (Resolved (mkResponse 200 (inr sample_payload)));
    Shell.Tick 60000;
    Shell.ClickRefresh ].

Definition sample_failure : Shell.event :=
  Shell.Deliver 0 (Resolved (mkResponse 500 (inl (mkExn "SyntaxError" "")))).

(** *** The life cycle of the shell

    The parameters of the data requests issued so far, oldest first, give the
    log of requests after the health check. *)

Definition validated (p : number * number) : Prop :=
  UHIViewModel.validateParameters (fst p) (snd p) = [].

Definition data_requests (vm : UHIViewModel.t) (ps : list (number * number))
  : list request :=
  map (fun p => uhi_request vm (fst p) (snd p)) ps.

(** The four phases: the health check is pending; it failed; the backend is
    healthy and nothing is pending; the backend is healthy and one data
    request, with the parameters [n] and [d], is pending.  No [MapView] was
    mounted in the first two. *)
Inductive phase (vm : UHIViewModel.t) (c : Shell.config) : Prop :=
| HealthChecking :
    Shell.inflight c = [(health_request vm, pending_health vm)] ->
    Shell.netlog c = [health_request vm] ->
    App.backendHealthy (Shell.ui c) = false ->
    App.loading (Shell.ui c) = true ->
    App.error (Shell.ui c) = None ->
    App.numPoints (Shell.ui c) = of_Z 100 ->
    App.daysBack (Shell.ui c) = of_Z 30 ->
    App.uhiData (Shell.ui c) = None ->
    Shell.maplog c = [] ->
    phase vm c
| Unhealthy :
    Shell.inflight c = [] ->
    Shell.netlog c = [health_request vm] ->
    App.backendHealthy (Shell.ui c) = false ->
    App.loading (Shell.ui c) = false ->
    App.uhiData (Shell.ui c) = None ->
    Shell.maplog c = [] ->
    phase vm c
| Idle (ps : list (number * number)) :
    Shell.inflight c = [] ->
    Shell.netlog c = health_request vm :: data_requests vm ps ->
    Forall validated ps ->
    hd_error ps = Some (of_Z 100, of_Z 30) ->
    App.backendHealthy (Shell.ui c) = true ->
    App.loading (Shell.ui c) = false ->
    phase vm c
| LoadingData (ps : list (number * number)) (n d : number) :
    Shell.inflight c = [(uhi_request vm n d, pending_load vm)] ->
    Shell.netlog c = health_request vm :: data_requests vm (ps ++ [(n, d)]) ->
    Forall validated (ps ++ [(n, d)]) ->
    hd_error (ps ++ [(n, d)]) = Some (of_Z 100, of_Z 30) ->
    App.backendHealthy (Shell.ui c) = true ->
    App.loading (Shell.ui c) = true ->
    App.error (Shell.ui c) = None ->
    App.numPoints (Shell.ui c) = n ->
    App.daysBack (Shell.ui c) = d ->
    phase vm c.

(** An answer of the health endpoint that [checkHealth] maps to [true]. *)
Definition healthy (o : fetch_outcome) : bool :=
  match o with
  | Resolved r => ok r
  | Rejected _ => false
  end.

(** The events that can put a request of the view model on the network,
    and those that can mount a [MapView], whose mount issues its own. *)
Definition may_fetch (e : Shell.event) : bool :=
  match e with
  | Shell.Deliver _ _ | Shell.ClickRefresh | Shell.ClickApply => true
  | _ => false
  end.

Definition may_mount (e : Shell.event) : bool :=
  match e with
  | Shell.Deliver _ _ | Shell.ClickMapTab => true
  | _ => false
  end.

(** The shell on which no control that needs data has acted: both parts of
    the pair are [null], the heat map is off, the map tab is open, no file
    was offered and no [MapView] was mounted. *)
Definition pristine (c : Shell.config) : Prop :=
  App.uhiData (Shell.ui c) = None
  /\ App.statistics (Shell.ui c) = Some JNull
  /\ App.showHeatmap (Shell.ui c) = false
  /\ App.activeView (Shell.ui c) = "map"
  /\ Shell.downloads c = []
  /\ Shell.maplog c = [].

(** The message of [checkBackendHealth] when the backend does not answer. *)
Definition banner : string :=
  "Backend server is not responding. Please try again later.".

(** The setter calls of the heat-map toggle and of the tabs. *)
Definition sets_view (u : App.update) : bool :=
  match u with
  | App.setShowHeatmap _ | App.setActiveView _ => true
  | _ => false
  end.

(** Two answers of the health endpoint: a success, and no answer at all. *)
Definition sample_healthy : fetch_outcome :=
  Resolved (mkResponse 200 (inl (mkExn "SyntaxError" ""))).

Definition sample_down : fetch_outcome :=
  Rejected (mkExn "TypeError" "Failed to fetch").

(** ** Parameter validation *)

Lemma withinb_spec lo hi x : withinb lo hi x = true <-> within lo hi x.
Proof.
  destruct x; simpl; try (split; [discriminate | tauto]).
  rewrite andb_true_iff, !Qle_bool_iff. tauto.
Qed.

Lemma lt_Fin_negb p q : lt (Fin p) (Fin q) = negb (Qle_bool q p).
Proof.
  unfold Qle_bool. rewrite Z.leb_antisym, negb_involutive. reflexivity.
Qed.

(** For a number other than [NaN] the test of the code, "below the lower
    bound or above the upper one", is the negation of membership. *)
Lemma range_test_ordered lo hi x :
  is_NaN x = false ->
  lt x (of_Z lo) || gt x (of_Z hi) = negb (withinb lo hi x).
Proof.
  destruct x as [ | | | q]; try reflexivity; try discriminate.
  intros _. unfold gt, of_Z, withinb.
  rewrite !lt_Fin_negb, negb_andb. reflexivity.
Qed.

Lemma validateParameters_split n d :
  UHIViewModel.validateParameters n d =
  ((if lt n (of_Z 10) || gt n (of_Z 500) then [UHIViewModel.msg_points] else [])
   ++ (if lt d (of_Z 7) || gt d (of_Z 90) then [UHIViewModel.msg_days] else []))%list.
Proof.
  unfold UHIViewModel.validateParameters.
  destruct (lt n (of_Z 10) || gt n (of_Z 500));
  destruct (lt d (of_Z 7) || gt d (of_Z 90)); reflexivity.
Qed.

(** C1, as stated, fails: [NaN] is in no interval, yet both comparisons of
    the range test are false on it, so [validateParameters(NaN, 30)] returns
    the empty list where the claim asks for the message about the points. *)
Lemma validateParameters_NaN_passes :
  ~ within 10 500 NaN
  /\ UHIViewModel.validateParameters NaN (of_Z 30) = []
  /\ expected_messages NaN (of_Z 30) = [UHIViewModel.msg_points]
  /\ UHIViewModel.validateParameters NaN (of_Z 30) <> expected_messages NaN (of_Z 30).
Proof.
  repeat split; try reflexivity.
  - intros H; exact H.
  - discriminate.
Qed.

(** C1 (amended): for every pair of numbers other than [NaN], infinities
    and fractions included, [validateParameters] returns exactly one message
    for each parameter outside its range, the one about the points first:
    as many messages as there are parameters out of range, the empty list
    when both are within [[10,500]] and [[7,90]], and what is reported about
    one parameter does not depend on the other. *)
Theorem validateParameters_one_message_per_bound (numPoints daysBack : number) :
  is_NaN numPoints = false ->
  is_NaN daysBack = false ->
  UHIViewModel.validateParameters numPoints daysBack
    = expected_messages numPoints daysBack
  /\ List.length (UHIViewModel.validateParameters numPoints daysBack)
     = ((if withinb 10 500 numPoints then 0 else 1)
        + (if withinb 7 90 daysBack then 0 else 1))%nat
  /\ (within 10 500 numPoints -> within 7 90 daysBack ->
      UHIViewModel.validateParameters numPoints daysBack = [])
  /\ (In UHIViewModel.msg_points (UHIViewModel.validateParameters numPoints daysBack)
      <-> ~ within 10 500 numPoints)
  /\ (In UHIViewModel.msg_days (UHIViewModel.validateParameters numPoints daysBack)
      <-> ~ within 7 90 daysBack).
Proof.
  intros Hn Hd.
  assert (E : UHIViewModel.validateParameters numPoints daysBack
              = expected_messages numPoints daysBack).
  { rewrite validateParameters_split, !range_test_ordered by assumption.
    unfold expected_messages.
    destruct (withinb 10 500 numPoints), (withinb 7 90 daysBack); reflexivity. }
  rewrite E. unfold expected_messages.
  rewrite <- !withinb_spec.
  destruct (withinb 10 500 numPoints), (withinb 7 90 daysBack); simpl;
    repeat split; try reflexivity; try congruence; try tauto;
    try (intros [H | H]; try discriminate H; try tauto);
    try (intros [H | [H | H]]; try discriminate H; try tauto);
    auto.
Qed.

Lemma validateParameters_one_message_per_bound_witness :
  UHIViewModel.validateParameters PosInf (Fin (7 # 2))
  = [UHIViewModel.msg_points; UHIViewModel.msg_days].
Proof.
  destruct (validateParameters_one_message_per_bound PosInf (Fin (7 # 2))
              eq_refl eq_refl) as [E _].
  rewrite E. reflexivity.
Defined.

(** C10: [validateParameters] has no integrality check: every value within
    [[10,500]] with every value within [[7,90]], whole or not, gives the empty
    list. *)
Theorem validateParameters_no_integrality_check (numPoints daysBack : number) :
  within 10 500 numPoints ->
  within 7 90 daysBack ->
  UHIViewModel.validateParameters numPoints daysBack = [].
Proof.
  intros Hn Hd.
  rewrite validateParameters_split, !range_test_ordered
    by (destruct numPoints, daysBack; simpl in *; tauto).
  apply withinb_spec in Hn, Hd. rewrite Hn, Hd. reflexivity.
Qed.

Lemma validateParameters_no_integrality_check_witness :
  is_integer (Fin (21 # 2)) = false
  /\ is_integer (Fin (15 # 2)) = false
  /\ UHIViewModel.validateParameters (Fin (21 # 2)) (Fin (15 # 2)) = [].
Proof.
  split; [reflexivity | split; [reflexivity | ]].
  apply (validateParameters_no_integrality_check (Fin (21 # 2)) (Fin (15 # 2)));
    simpl; split; discriminate.
Defined.

(** ** The view model: the two requests *)

(** C2, as stated, fails: both failures are thrown with [new Error(...)], so
    they have one type; with a payload whose [error] field repeats the text of
    the other failure, even the two thrown values are the same. *)
Lemma fetchUHIData_failures_share_type : ~ distinguishable_failures.
Proof.
  intros H.
  set (vm := UHIViewModel.new None).
  set (o1 := Resolved (mkResponse 500 (inl (Error "")))).
  set (o2 := Resolved (mkResponse 200 (inr (mkPayload false (Some []) (Some JNull)
                 (Some "HTTP error! status: 500"))))).
  apply (H vm None None o1 o2 (Error "HTTP error! status: 500")
           (Error "HTTP error! status: 500")); reflexivity.
Qed.

(** C2 (amended): [fetchUHIData] first issues the GET with its two
    parameters (100 and 30 for those left out) and updates nothing.  When
    the response is not a success it throws a plain [Error] whose message is
    "HTTP error! status: " followed by the status; when the decoded payload
    has [success] false it throws a plain [Error] whose message is the
    [error] field of the payload, or "API returned error" when that field is
    absent or empty; otherwise it returns the decoded payload as it is.  A
    rejection of [fetch] or of [json()] is passed on.  The two failures are
    values of the one type [Error] and differ by their message only. *)
Theorem fetchUHIData_outcomes (U : Type) (vm : UHIViewModel.t) (n d : option number) :
  exists k,
    UHIViewModel.fetchUHIData (U := U) vm n d
    = Fetch (uhi_request vm (match n with Some x => x | None => of_Z 100 end)
                            (match d with Some x => x | None => of_Z 30 end)) k
    /\ (forall o,
         k o = match o with
               | Rejected e => Throw e
               | Resolved r =>
                   if ok r then
                     match json_body r with
                     | inl e => Throw e
                     | inr pl =>
                         if success pl then Return pl
                         else Throw (mkExn "Error"
                                (match Http.error pl with
                                 | Some (String a m) => String a m
                                 | _ => "API returned error"
                                 end))
                     end
                   else Throw (mkExn "Error"
                          ("HTTP error! status: " ++ decimal (status r)))
               end)
    /\ (forall o e,
         http_failure o = true \/ api_failure o = true ->
         k o = Throw e -> name e = "Error").
Proof.
  eexists. split; [reflexivity | ]. split.
  - intros [e | r]; simpl; [reflexivity | ].
    destruct (ok r); simpl; [ | reflexivity].
    unfold json_of. destruct (json_body r) as [e | pl]; simpl; [reflexivity | ].
    destruct (success pl); simpl; [reflexivity | ].
    destruct (Http.error pl) as [[ | a m] | ]; reflexivity.
  - intros [e0 | r] e; simpl; [intros [H | H]; discriminate H | ].
    destruct (ok r); simpl.
    + intros [H | H]; [discriminate H | ].
      unfold json_of. destruct (json_body r) as [e1 | pl]; [discriminate H | ].
      simpl in *. destruct (success pl); [discriminate H | ]. simpl.
      intros E. injection E as <-. reflexivity.
    + intros _ E. injection E as <-. reflexivity.
Qed.

Lemma fetchUHIData_outcomes_witness :
  ends_with (UHIViewModel.fetchUHIData (U := unit) (UHIViewModel.new None)
               (Some (of_Z 100)) (Some (of_Z 30)))
            (Resolved (mkResponse 404 (inl (Error ""))))
  = Some (inl (Error "HTTP error! status: 404")).
Proof.
  destruct (fetchUHIData_outcomes unit (UHIViewModel.new None)
              (Some (of_Z 100)) (Some (of_Z 30))) as (k & E & Hk & Hname).
  unfold ends_with. rewrite E. simpl. rewrite Hk. simpl.
  assert (N := Hname (Resolved (mkResponse 404 (inl (Error ""))))
                 (Error "HTTP error! status: 404") (or_introl eq_refl)).
  rewrite Hk in N. specialize (N eq_refl). reflexivity.
Defined.

(** C5: [checkHealth] issues the request to the health endpoint and,
    however that request settles, returns a boolean and does not throw:
    [response.ok] for a response, successful or not, and [false] when the
    request itself fails. *)
Theorem checkHealth_returns_boolean (U : Type) (vm : UHIViewModel.t) :
  exists k,
    UHIViewModel.checkHealth (U := U) vm = Fetch (health_request vm) k
    /\ forall o,
         k o = Return (match o with
                       | Rejected _ => false
                       | Resolved r => ok r
                       end).
Proof.
  eexists. split; [reflexivity | ].
  intros [e | r]; reflexivity.
Qed.

(** ** The load cycle *)

Lemma loadUHIData_invalid vm n d e es :
  UHIViewModel.validateParameters n d = e :: es ->
  App.loadUHIData vm n d
  = Update (App.setLoading true)
      (Update (App.setError None)
         (Update (App.setError (Some (join ". " (e :: es))))
            (Update (App.setLoading false)
               (Update (App.setLoading false) (Return tt))))).
Proof.
  intros H. unfold App.loadUHIData. rewrite H. reflexivity.
Qed.

Lemma loadUHIData_valid vm n d :
  UHIViewModel.validateParameters n d = [] ->
  App.loadUHIData vm n d
  = Update (App.setLoading true)
      (Update (App.setError None)
         (Fetch (uhi_request vm n d) (pending_load vm))).
Proof.
  intros H. unfold App.loadUHIData. rewrite H. reflexivity.
Qed.

(** After the await: the two stores and the end of loading for a payload,
    the message and the end of loading for anything else. *)
Lemma pending_load_steps vm o :
  pending_load vm o
  = match loaded_payload o with
    | Some pl =>
        Update (App.setUhiData (Http.data pl))
          (Update (App.setStatistics (Http.statistics pl))
             (Update (App.setLoading false) (Return tt)))
    | None =>
        Update (App.setError (Some (failure_message o)))
          (Update (App.setLoading false) (Return tt))
    end.
Proof.
  destruct o as [e | r]; simpl; [reflexivity | ].
  unfold pending_load; simpl.
  destruct (ok r); simpl; [ | reflexivity].
  unfold json_of. destruct (json_body r) as [e | pl]; simpl; [reflexivity | ].
  destruct (success pl); simpl; [reflexivity | ].
  destruct (Http.error pl) as [[ | a m] | ]; reflexivity.
Qed.

Lemma pending_health_steps vm o :
  pending_health vm o
  = match o with
    | Resolved r =>
        if ok r then Update (App.setBackendHealthy true) (Return tt)
        else
          Update (App.setBackendHealthy false)
            (Update (App.setError
                       (Some "Backend server is not responding. Please try again later."))
               (Update (App.setLoading false) (Return tt)))
    | Rejected _ =>
        Update (App.setBackendHealthy false)
          (Update (App.setError
                     (Some "Backend server is not responding. Please try again later."))
             (Update (App.setLoading false) (Return tt)))
    end.
Proof.
  destruct o as [e | r]; simpl; [reflexivity | ].
  unfold pending_health; simpl. destruct (ok r); reflexivity.
Qed.

(** C3: a load cycle, started by the effect on becoming ready or by the
    Refresh or Apply button (each runs [loadUHIData] with the parameters of
    the state), first sets [loading] (and clears the error),
    then validates the parameters of its render.  When validation fails it
    ends without a network call in Failed with the validation messages
    joined.  Otherwise it awaits the fetch in Loading, and however the
    fetch settles it ends, without a second call, with [loading] false: in
    Loaded with the data and statistics of the payload, or in Failed with
    the message "HTTP error! status: " and the status code for a response
    that is not a success, with the [error] field of the payload, or
    "API returned error" when it is absent or empty, for [success: false],
    and with the message of the exception, or "Failed to load UHI data",
    when [fetch] or [json()] rejects. *)
Theorem loadUHIData_cycle (vm : UHIViewModel.t) (n d : number) (s : App.state) :
  let p := App.loadUHIData vm n d in
  (forall s0,
     App.handleRefresh vm s0
     = App.loadUHIData vm (App.numPoints s0) (App.daysBack s0)
     /\ App.handleApplyFilters vm s0
        = App.loadUHIData vm (App.numPoints s0) (App.daysBack s0)
     /\ (App.backendHealthy s0 = true ->
         App.effect_backendHealthy vm s0
         = App.loadUHIData vm (App.numPoints s0) (App.daysBack s0)))
  /\ (exists rest, updates p = App.setLoading true :: App.setError None :: rest)
  /\ Loading (commit [App.setLoading true; App.setError None] s)
  /\ match UHIViewModel.validateParameters n d with
     | (_ :: _) as errors =>
         awaits p = None
         /\ result p = Some (inr tt)
         /\ Failed (join ". " errors) (settle p s)
     | [] =>
         exists k,
           awaits p = Some (uhi_request vm n d, k)
           /\ Loading (settle p s)
           /\ App.error (settle p s) = None
           /\ forall (o : fetch_outcome) (s2 : App.state),
                awaits (k o) = None
                /\ result (k o) = Some (inr tt)
                /\ match o with
                   | Rejected e =>
                       Failed (or_else (message e) "Failed to load UHI data")
                              (settle (k o) s2)
                   | Resolved r =>
                       if ok r then
                         match json_body r with
                         | inl e =>
                             Failed (or_else (message e) "Failed to load UHI data")
                                    (settle (k o) s2)
                         | inr pl =>
                             if success pl
                             then Loaded (Http.data pl) (Http.statistics pl)
                                         (settle (k o) s2)
                                  /\ App.error (settle (k o) s2) = App.error s2
                             else Failed (match Http.error pl with
                                          | Some (String a m) => String a m
                                          | _ => "API returned error"
                                          end)
                                         (settle (k o) s2)
                         end
                       else Failed ("HTTP error! status: " ++ decimal (status r))
                                   (settle (k o) s2)
                   end
     end.
Proof.
  intros p. subst p.
  split.
  { intros s0. split; [reflexivity | split; [reflexivity | ]].
    intros H. unfold App.effect_backendHealthy. rewrite H. reflexivity. }
  destruct (UHIViewModel.validateParameters n d) as [ | e es] eqn:V.
  - rewrite (loadUHIData_valid vm n d V).
    split; [eexists; reflexivity | ].
    split; [destruct s; reflexivity | ].
    exists (pending_load vm).
    split; [reflexivity | ].
    split; [destruct s; reflexivity | ].
    split; [destruct s; reflexivity | ].
    intros o s2. rewrite pending_load_steps.
    destruct o as [e | r]; simpl.
    + destruct s2; repeat split.
    + destruct (ok r); [ | destruct s2; repeat split].
      destruct (json_body r) as [e | pl]; [destruct s2; repeat split | ].
      destruct (success pl); destruct s2; repeat split.
  - rewrite (loadUHIData_invalid vm n d e es V).
    split; [eexists; reflexivity | ].
    split; [destruct s; reflexivity | ].
    destruct s; repeat split.
Qed.

Lemma loadUHIData_cycle_witness :
  Failed "Number of points must be between 10 and 500"
         (settle (App.loadUHIData sample_vm (of_Z 5) (of_Z 30)) App.initial)
  /\ exists k,
       awaits (App.loadUHIData sample_vm (of_Z 100) (of_Z 30))
       = Some (uhi_request sample_vm (of_Z 100) (of_Z 30), k)
       /\ Failed "HTTP error! status: 500"
                 (settle (k (Resolved (mkResponse 500 (inl (Error "")))))
                         App.initial)
       /\ Loaded (Some sample_points) (Some sample_statistics)
                 (settle (k (Resolved (mkResponse 200 (inr sample_payload))))
                         App.initial).
Proof.
  split.
  - exact (proj2 (proj2 (proj2 (proj2 (proj2
      (loadUHIData_cycle sample_vm (of_Z 5) (of_Z 30) App.initial)))))).
  - destruct (loadUHIData_cycle sample_vm (of_Z 100) (of_Z 30) App.initial)
      as (_ & _ & _ & k & Hk & _ & _ & H).
    exists k. split; [exact Hk | split].
    + exact (proj2 (proj2 (H (Resolved (mkResponse 500 (inl (Error ""))))
                             App.initial))).
    + exact (proj1 (proj2 (proj2
               (H (Resolved (mkResponse 200 (inr sample_payload))) App.initial)))).
Defined.

(** ** The shell as a machine *)

Lemma run_spec (p : App.handler) (c : Shell.config) :
  Shell.run p c
  = Shell.mkConfig
      (settle p (Shell.ui c))
      (Shell.inflight c ++ match awaits p with Some rk => [rk] | None => [] end)
      (Shell.netlog c ++ match awaits p with Some (req, _) => [req] | None => [] end)
      (Shell.downloads c) (Shell.clock c) (Shell.lastScrollY c) (Shell.maplog c).
Proof.
  revert c. induction p as [a | e | u k IH | req k IH]; intros c; simpl.
  - rewrite !app_nil_r. destruct c; reflexivity.
  - rewrite !app_nil_r. destruct c; reflexivity.
  - rewrite IH. reflexivity.
  - reflexivity.
Qed.

(** A render changes nothing but the log of the [MapView] requests. *)
Lemma render_spec (before : App.state) (c : Shell.config) :
  Shell.render before c
  = Shell.mkConfig (Shell.ui c) (Shell.inflight c) (Shell.netlog c)
      (Shell.downloads c) (Shell.clock c) (Shell.lastScrollY c)
      (Shell.maplog c ++ mounts before (Shell.ui c)).
Proof.
  unfold Shell.render, mounts.
  destruct (negb (Shell.shows_map before) && Shell.shows_map (Shell.ui c)).
  - reflexivity.
  - rewrite app_nil_r. destruct c; reflexivity.
Qed.

Lemma mounts_same (before after : App.state) :
  Shell.shows_map after = Shell.shows_map before -> mounts before after = [].
Proof.
  intros E. unfold mounts. rewrite E.
  destruct (Shell.shows_map before); reflexivity.
Qed.

Lemma mounts_loading (before after : App.state) :
  App.loading after = true -> mounts before after = [].
Proof.
  intros E. unfold mounts, Shell.shows_map. rewrite E.
  rewrite andb_false_r. reflexivity.
Qed.

Lemma mounts_no_data (before after : App.state) :
  App.uhiData after = None -> mounts before after = [].
Proof.
  intros E. unfold mounts, Shell.shows_map, Shell.has_data. rewrite E.
  rewrite andb_false_r, andb_false_r. reflexivity.
Qed.

Lemma settle_keeps_data (us : list App.update) (s : App.state) :
  forallb (fun u => negb (stores_data u)) us = true ->
  App.uhiData (commit us s) = App.uhiData s
  /\ App.statistics (commit us s) = App.statistics s.
Proof.
  revert s. induction us as [ | u us IH]; intros s H; simpl in *.
  - split; reflexivity.
  - apply andb_true_iff in H. destruct H as [Hu H].
    destruct (IH (App.apply u s) H) as [E1 E2]. unfold commit in *.
    rewrite E1, E2. destruct s, u; simpl in *; try discriminate; split; reflexivity.
Qed.

Lemma loadUHIData_updates_keep_data vm n d :
  forallb (fun u => negb (stores_data u)) (updates (App.loadUHIData vm n d)) = true.
Proof.
  destruct (UHIViewModel.validateParameters n d) as [ | e es] eqn:V.
  - rewrite (loadUHIData_valid vm n d V). reflexivity.
  - rewrite (loadUHIData_invalid vm n d e es V). reflexivity.
Qed.

Lemma loadUHIData_awaits vm n d :
  awaits (App.loadUHIData vm n d) = None
  \/ awaits (App.loadUHIData vm n d) = Some (uhi_request vm n d, pending_load vm).
Proof.
  destruct (UHIViewModel.validateParameters n d) as [ | e es] eqn:V.
  - rewrite (loadUHIData_valid vm n d V). right; reflexivity.
  - rewrite (loadUHIData_invalid vm n d e es V). left; reflexivity.
Qed.

Lemma append_differs (base : string) : String.eqb (base ++ "/health") (base ++ "/uhi") = false.
Proof.
  induction base as [ | a base IH]; simpl; [reflexivity | ].
  rewrite Ascii.eqb_refl. exact IH.
Qed.

Lemma health_is_not_data vm : is_data_request vm (health_request vm) = false.
Proof. apply append_differs. Qed.

Lemma uhi_is_data vm n d : is_data_request vm (uhi_request vm n d) = true.
Proof. apply String.eqb_refl. Qed.

Lemma dispatch_same_health vm h c :
  App.backendHealthy (settle h (Shell.ui c)) = App.backendHealthy (Shell.ui c) ->
  Shell.dispatch vm h c = Shell.render (Shell.ui c) (Shell.run h c).
Proof.
  intros H. unfold Shell.dispatch. rewrite render_spec, run_spec. simpl.
  rewrite H, Bool.eqb_reflx. reflexivity.
Qed.


Lemma effect_updates_keep_data vm s :
  forallb (fun u => negb (stores_data u))
          (updates (App.effect_backendHealthy vm s)) = true.
Proof.
  unfold App.effect_backendHealthy. destruct (App.backendHealthy s).
  - apply loadUHIData_updates_keep_data.
  - reflexivity.
Qed.

Lemma effect_awaits vm s :
  awaits (App.effect_backendHealthy vm s) = None
  \/ exists n d,
       awaits (App.effect_backendHealthy vm s)
       = Some (uhi_request vm n d, pending_load vm).
Proof.
  unfold App.effect_backendHealthy. destruct (App.backendHealthy s).
  - destruct (loadUHIData_awaits vm (App.numPoints s) (App.daysBack s)) as [E | E].
    + left; exact E.
    + right; eauto.
  - left; reflexivity.
Qed.

(** A handler that stores no data leaves the displayed pair as it was, the
    effect that may follow it included. *)
Lemma dispatch_keeps_data vm h c :
  forallb (fun u => negb (stores_data u)) (updates h) = true ->
  App.uhiData (Shell.ui (Shell.dispatch vm h c)) = App.uhiData (Shell.ui c)
  /\ App.statistics (Shell.ui (Shell.dispatch vm h c)) = App.statistics (Shell.ui c).
Proof.
  intros H. unfold Shell.dispatch.
  destruct (settle_keeps_data (updates h) (Shell.ui c) H) as [E1 E2].
  destruct (Bool.eqb _ _); rewrite !render_spec, !run_spec; simpl.
  - split; assumption.
  - destruct (settle_keeps_data _ (settle h (Shell.ui c))
                (effect_updates_keep_data vm (settle h (Shell.ui c)))) as [F1 F2].
    unfold settle in *. rewrite F1, F2. split; assumption.
Qed.

Lemma pending_known_app vm c rks :
  pending_known vm c ->
  Forall (fun rk =>
            rk = (health_request vm, pending_health vm)
            \/ exists n d, rk = (uhi_request vm n d, pending_load vm)) rks ->
  forall ui' nl dl cl ls ml,
    pending_known vm (Shell.mkConfig ui' (Shell.inflight c ++ rks) nl dl cl ls ml).
Proof.
  intros H1 H2 *. unfold pending_known in *. simpl.
  apply Forall_app; split; assumption.
Qed.

Lemma run_pending_known vm h c :
  pending_known vm c ->
  (awaits h = None
   \/ exists n d, awaits h = Some (uhi_request vm n d, pending_load vm)) ->
  pending_known vm (Shell.run h c).
Proof.
  intros Hc Hh. rewrite run_spec. apply pending_known_app; [exact Hc | ].
  destruct Hh as [E | (n & d & E)]; rewrite E.
  - constructor.
  - constructor; [right; eauto | constructor].
Qed.

Lemma render_pending_known vm before c :
  pending_known vm c -> pending_known vm (Shell.render before c).
Proof. rewrite render_spec. exact (fun H => H). Qed.

Lemma dispatch_pending_known vm h c :
  pending_known vm c ->
  (awaits h = None
   \/ exists n d, awaits h = Some (uhi_request vm n d, pending_load vm)) ->
  pending_known vm (Shell.dispatch vm h c).
Proof.
  intros Hc Hh. unfold Shell.dispatch.
  destruct (Bool.eqb _ _).
  - apply render_pending_known, run_pending_known; assumption.
  - apply render_pending_known, run_pending_known;
      [apply render_pending_known, run_pending_known; assumption | ].
    apply effect_awaits.
Qed.

Lemma drop_nth_Forall {A} (P : A -> Prop) i (l : list A) :
  Forall P l -> Forall P (Shell.drop_nth i l).
Proof.
  intros H. revert i. induction H as [ | x l Hx Hl IH]; intros [ | i]; simpl;
    try constructor; auto.
Qed.

Lemma shows_last_load_carried c c' last :
  App.uhiData (Shell.ui c') = App.uhiData (Shell.ui c) ->
  App.statistics (Shell.ui c') = App.statistics (Shell.ui c) ->
  shows_last_load c last -> shows_last_load c' last.
Proof.
  intros E1 E2. unfold shows_last_load.
  destruct last as [[t pl] | ]; rewrite E1, E2; tauto.
Qed.

Lemma pending_known_inflight vm c c' :
  Shell.inflight c' = Shell.inflight c -> pending_known vm c -> pending_known vm c'.
Proof. unfold pending_known. intros ->. tauto. Qed.

Lemma nth_error_Forall {A} (P : A -> Prop) (l : list A) i x :
  Forall P l -> nth_error l i = Some x -> P x.
Proof.
  intros H E. apply nth_error_In in E. rewrite Forall_forall in H. auto.
Qed.

Ltac unchanged :=
  split; [assumption | eapply shows_last_load_carried; [ | | eassumption];
                       reflexivity].

Ltac quiet :=
  split;
  [ apply dispatch_pending_known; [assumption | left; reflexivity]
  | eapply shows_last_load_carried; [ | | eassumption];
    apply dispatch_keeps_data; reflexivity ].

(** One event keeps the two invariants: the pending awaits are known ones,
    and the displayed pair is the one of the last successful load. *)
Lemma step_preserves vm c e last :
  pending_known vm c ->
  shows_last_load c last ->
  pending_known vm (Shell.step vm c e)
  /\ shows_last_load (Shell.step vm c e)
       (match loads vm c e with
        | Some pl => Some (Shell.clock c, pl)
        | None => last
        end).
Proof.
  intros Hp Hs.
  destruct e as [i o | ms | y | | | lag | v | v | b | | | | z | pt]; simpl.
  - (* Deliver *)
    destruct (nth_error (Shell.inflight c) i) as [[req k] | ] eqn:Hi; [ | unchanged].
    set (c' := Shell.mkConfig _ _ _ _ _ _ _).
    assert (Hp' : pending_known vm c').
    { unfold pending_known, c'; simpl. apply drop_nth_Forall. exact Hp. }
    destruct (nth_error_Forall _ _ _ _ Hp Hi) as [E | (n & d & E)];
      injection E as -> ->.
    + (* the health check *)
      rewrite health_is_not_data.
      split.
      * apply dispatch_pending_known; [exact Hp' | left].
        rewrite pending_health_steps.
        destruct o as [e | r]; [reflexivity | destruct (ok r); reflexivity].
      * eapply shows_last_load_carried; [ | | exact Hs].
        -- apply (dispatch_keeps_data vm (pending_health vm o) c').
           rewrite pending_health_steps.
           destruct o as [e | r]; [reflexivity | destruct (ok r); reflexivity].
        -- apply (dispatch_keeps_data vm (pending_health vm o) c').
           rewrite pending_health_steps.
           destruct o as [e | r]; [reflexivity | destruct (ok r); reflexivity].
    + (* a load cycle *)
      rewrite uhi_is_data.
      rewrite dispatch_same_health
        by (rewrite pending_load_steps; destruct (loaded_payload o);
            simpl; destruct (Shell.ui c); reflexivity).
      split.
      * apply render_pending_known, run_pending_known; [exact Hp' | left].
        rewrite pending_load_steps. destruct (loaded_payload o); reflexivity.
      * rewrite render_spec, run_spec, pending_load_steps.
        destruct (loaded_payload o) as [pl | ].
        -- unfold shows_last_load; simpl.
           destruct (Shell.ui c); simpl. split; reflexivity.
        -- eapply shows_last_load_carried; [ | | exact Hs];
             simpl; destruct (Shell.ui c); reflexivity.
  - (* Tick *)
    unchanged.
  - (* Scroll *)
    unfold App.handleScroll.
    destruct (lt y (of_Z 20)); [ | destruct (lt y (Shell.lastScrollY c))].
    all: split;
      [ eapply pending_known_inflight;
        [ simpl; reflexivity
        | apply dispatch_pending_known; [exact Hp | left; reflexivity] ]
      | eapply shows_last_load_carried; [ | | exact Hs]; simpl;
        apply dispatch_keeps_data; reflexivity ].
  - (* Refresh *)
    destruct (App.loading (Shell.ui c) || negb (App.backendHealthy (Shell.ui c)));
      [unchanged | ].
    split.
    + apply dispatch_pending_known; [exact Hp | ].
      destruct (loadUHIData_awaits vm (App.numPoints (Shell.ui c))
                                      (App.daysBack (Shell.ui c))) as [E | E];
        [left; exact E | right; eauto].
    + eapply shows_last_load_carried; [ | | exact Hs];
        apply dispatch_keeps_data, loadUHIData_updates_keep_data.
  - (* Apply *)
    destruct (App.loading (Shell.ui c) || negb (App.backendHealthy (Shell.ui c)));
      [unchanged | ].
    split.
    + apply dispatch_pending_known; [exact Hp | ].
      destruct (loadUHIData_awaits vm (App.numPoints (Shell.ui c))
                                      (App.daysBack (Shell.ui c))) as [E | E];
        [left; exact E | right; eauto].
    + eapply shows_last_load_carried; [ | | exact Hs];
        apply dispatch_keeps_data, loadUHIData_updates_keep_data.
  - (* Export *)
    destruct (App.handleExportData _ _ _); unchanged.
  - destruct (App.loading (Shell.ui c)); [unchanged | quiet].
  - destruct (App.loading (Shell.ui c)); [unchanged | quiet].
  - destruct (App.loading (Shell.ui c) || negb (Shell.has_data (Shell.ui c)));
      [unchanged | quiet].
  - destruct (Shell.is_truthy (App.error (Shell.ui c))); [quiet | unchanged].
  - destruct (App.loading (Shell.ui c) || negb (Shell.has_data (Shell.ui c)));
      [unchanged | quiet].
  - destruct (App.loading (Shell.ui c) || negb (Shell.has_data (Shell.ui c)));
      [unchanged | quiet].
  - quiet.
  - quiet.
Qed.

Lemma mounted_spec vm scrollY now :
  Shell.mounted vm scrollY now
  = Shell.mkConfig App.initial [(health_request vm, pending_health vm)]
                   [health_request vm] [] now scrollY [].
Proof. reflexivity. Qed.

Lemma mounted_invariants vm scrollY now :
  pending_known vm (Shell.mounted vm scrollY now)
  /\ shows_last_load (Shell.mounted vm scrollY now) None.
Proof.
  rewrite mounted_spec. split.
  - constructor; [left; reflexivity | constructor].
  - split; reflexivity.
Qed.

Lemma steps_preserve vm evs : forall c last,
  pending_known vm c ->
  shows_last_load c last ->
  pending_known vm (Shell.steps vm c evs)
  /\ shows_last_load (Shell.steps vm c evs) (last_load vm c evs last).
Proof.
  induction evs as [ | e evs IH]; intros c last Hp Hs; simpl.
  - split; assumption.
  - destruct (step_preserves vm c e last Hp Hs) as [Hp' Hs'].
    apply IH; assumption.
Qed.

(** Every reachable configuration has the two invariants, for the last
    successful load of the run that reached it. *)
Lemma reachable_invariants vm scrollY now evs :
  pending_known vm (Shell.steps vm (Shell.mounted vm scrollY now) evs)
  /\ shows_last_load (Shell.steps vm (Shell.mounted vm scrollY now) evs)
       (last_load vm (Shell.mounted vm scrollY now) evs None).
Proof.
  destruct (mounted_invariants vm scrollY now) as [Hp Hs].
  apply steps_preserve; assumption.
Qed.

Lemma loaded_payload_inv o pl :
  loaded_payload o = Some pl ->
  exists r, o = Resolved r /\ ok r = true /\ json_body r = inr pl /\ success pl = true.
Proof.
  destruct o as [e | r]; simpl; [discriminate | ].
  destruct (ok r) eqn:Hok; [ | discriminate].
  destruct (json_body r) as [e | pl'] eqn:Hb; [discriminate | ].
  destruct (success pl') eqn:Hs; [ | discriminate].
  intros E. injection E as <-. exists r. auto.
Qed.

Lemma loads_inv vm c e pl :
  loads vm c e = Some pl ->
  exists i r, e = Shell.Deliver i (Resolved r)
              /\ ok r = true /\ json_body r = inr pl /\ success pl = true.
Proof.
  destruct e; simpl; try discriminate.
  destruct (nth_error _ _) as [[req k] | ]; [ | discriminate].
  destruct (is_data_request vm req); [ | discriminate].
  intros H. destruct (loaded_payload_inv _ _ H) as (r & -> & H1 & H2 & H3).
  eauto 6.
Qed.

(** The last successful load of a run is the one before the run or the
    payload of a response delivered during the run. *)
Lemma last_load_origin vm evs : forall c last t pl,
  last_load vm c evs last = Some (t, pl) ->
  last = Some (t, pl)
  \/ exists i r, In (Shell.Deliver i (Resolved r)) evs
                 /\ ok r = true /\ json_body r = inr pl /\ success pl = true.
Proof.
  induction evs as [ | e evs IH]; intros c last t pl H; simpl in H.
  - left; exact H.
  - apply IH in H. destruct H as [H | (i & r & Hin & Hr)].
    + destruct (loads vm c e) as [pl' | ] eqn:L; [ | left; exact H].
      injection H as <- <-.
      destruct (loads_inv _ _ _ _ L) as (i & r & -> & Hr).
      right. exists i, r. split; [left; reflexivity | exact Hr].
    + right. exists i, r. split; [right; exact Hin | exact Hr].
Qed.

(** C4: in every reachable state of the shell the displayed [uhiData] and
    [statistics] are both still [null], or both are fields of the payload of
    one response delivered during the run; and every step leaves the pair
    as it was or sets both parts from the payload of the one response the
    step delivers. *)
Theorem displayed_pair_from_one_response
  (vm : UHIViewModel.t) (scrollY : number) (now : Date.time)
  (evs : list Shell.event) (e : Shell.event) :
  let c := Shell.steps vm (Shell.mounted vm scrollY now) evs in
  let c' := Shell.step vm c e in
  ((App.uhiData (Shell.ui c) = None /\ App.statistics (Shell.ui c) = Some JNull)
   \/ exists i r pl,
        In (Shell.Deliver i (Resolved r)) evs
        /\ json_body r = inr pl
        /\ App.uhiData (Shell.ui c) = Http.data pl
        /\ App.statistics (Shell.ui c) = Http.statistics pl)
  /\ ((App.uhiData (Shell.ui c') = App.uhiData (Shell.ui c)
       /\ App.statistics (Shell.ui c') = App.statistics (Shell.ui c))
      \/ exists i r pl,
           e = Shell.Deliver i (Resolved r)
           /\ json_body r = inr pl
           /\ App.uhiData (Shell.ui c') = Http.data pl
           /\ App.statistics (Shell.ui c') = Http.statistics pl).
Proof.
  intros c c'.
  destruct (reachable_invariants vm scrollY now evs) as [Hp Hs].
  fold c in Hp, Hs.
  split.
  - destruct (last_load vm _ evs None) as [[t pl] | ] eqn:L.
    + destruct Hs as (E1 & E2).
      destruct (last_load_origin _ _ _ _ _ _ L) as [H | (i & r & Hin & _ & Hb & _)];
        [discriminate H | ].
      right. exists i, r, pl. auto.
    + left. exact Hs.
  - destruct (step_preserves vm c e _ Hp Hs) as [_ Hs'].
    fold c' in Hs'.
    destruct (loads vm c e) as [pl | ] eqn:L.
    + destruct (loads_inv _ _ _ _ L) as (i & r & -> & _ & Hb & _).
      destruct Hs' as (E1 & E2).
      right. exists i, r, pl. auto.
    + left. unfold shows_last_load in Hs, Hs'.
      destruct (last_load vm _ evs None) as [[t pl] | ].
      * destruct Hs as (E1 & E2), Hs' as (F1 & F2).
        rewrite E1, E2, F1, F2. split; reflexivity.
      * destruct Hs as (E1 & E2), Hs' as (F1 & F2).
        rewrite E1, E2, F1, F2. split; reflexivity.
Qed.

(** C8: in every state of the shell a zone click calls [setSelectedZone] and
    nothing else: it awaits no request, the log of requests, the pending
    awaits and the downloads are as before, no [MapView] is mounted by it
    (so none of its requests is issued), [selectedZone] is the zone clicked,
    and every other field of the state is unchanged. *)
Theorem zone_click_only_selects
  (vm : UHIViewModel.t) (c : Shell.config) (zone : App.zone_filter) :
  let c' := Shell.step vm c (Shell.ZoneFilter zone) in
  updates (App.handleZoneFilter zone) = [App.setSelectedZone zone]
  /\ awaits (App.handleZoneFilter zone) = None
  /\ Shell.netlog c' = Shell.netlog c
  /\ Shell.inflight c' = Shell.inflight c
  /\ Shell.downloads c' = Shell.downloads c
  /\ Shell.maplog c' = Shell.maplog c
  /\ App.selectedZone (Shell.ui c') = zone
  /\ App.uhiData (Shell.ui c') = App.uhiData (Shell.ui c)
  /\ App.statistics (Shell.ui c') = App.statistics (Shell.ui c)
  /\ App.loading (Shell.ui c') = App.loading (Shell.ui c)
  /\ App.error (Shell.ui c') = App.error (Shell.ui c)
  /\ App.numPoints (Shell.ui c') = App.numPoints (Shell.ui c)
  /\ App.daysBack (Shell.ui c') = App.daysBack (Shell.ui c)
  /\ App.backendHealthy (Shell.ui c') = App.backendHealthy (Shell.ui c)
  /\ App.selectedPoint (Shell.ui c') = App.selectedPoint (Shell.ui c)
  /\ App.showHeatmap (Shell.ui c') = App.showHeatmap (Shell.ui c)
  /\ App.activeView (Shell.ui c') = App.activeView (Shell.ui c)
  /\ App.showHeader (Shell.ui c') = App.showHeader (Shell.ui c).
Proof.
  intros c'. subst c'. simpl.
  rewrite dispatch_same_health by (destruct (Shell.ui c); reflexivity).
  rewrite render_spec, run_spec. simpl.
  rewrite mounts_same by (destruct (Shell.ui c); reflexivity).
  rewrite !app_nil_r.
  destruct (Shell.ui c); simpl. repeat split.
Qed.

(** C9: a load cycle that fails leaves [uhiData] and [statistics] as they
    were.  The handler stores nothing before its await nor when validation
    fails, and after the await it stores nothing unless the response is a
    success with a payload whose [success] is true (so not for another
    status, not for [success: false], not for a rejected [fetch] or
    [json()]); and in every reachable state of the shell an event that is
    not the arrival of such a payload for a data request leaves both
    unchanged. *)
Theorem failed_load_keeps_data
  (vm : UHIViewModel.t) (n d : number) (s : App.state)
  (scrollY : number) (now : Date.time) (evs : list Shell.event) (e : Shell.event) :
  let p := App.loadUHIData vm n d in
  let c := Shell.steps vm (Shell.mounted vm scrollY now) evs in
  (App.uhiData (settle p s) = App.uhiData s
   /\ App.statistics (settle p s) = App.statistics s)
  /\ (forall req k o s2,
        awaits p = Some (req, k) ->
        loaded_payload o = None ->
        Failed (failure_message o) (settle (k o) s2)
        /\ App.uhiData (settle (k o) s2) = App.uhiData s2
        /\ App.statistics (settle (k o) s2) = App.statistics s2)
  /\ (loads vm c e = None ->
      App.uhiData (Shell.ui (Shell.step vm c e)) = App.uhiData (Shell.ui c)
      /\ App.statistics (Shell.ui (Shell.step vm c e)) = App.statistics (Shell.ui c)).
Proof.
  intros p c. split; [ | split].
  - apply settle_keeps_data, loadUHIData_updates_keep_data.
  - intros req k o s2 Hk Ho. subst p.
    destruct (loadUHIData_awaits vm n d) as [E | E]; rewrite E in Hk;
      [discriminate Hk | ].
    injection Hk as <- <-.
    rewrite pending_load_steps, Ho. destruct s2; repeat split.
  - intros L.
    destruct (reachable_invariants vm scrollY now evs) as [Hp Hs].
    fold c in Hp, Hs.
    destruct (step_preserves vm c e _ Hp Hs) as [_ Hs'].
    rewrite L in Hs'. unfold shows_last_load in Hs, Hs'.
    destruct (last_load vm _ evs None) as [[t pl] | ].
    + destruct Hs as (E1 & E2), Hs' as (F1 & F2).
      rewrite E1, E2, F1, F2. split; reflexivity.
    + destruct Hs as (E1 & E2), Hs' as (F1 & F2).
      rewrite E1, E2, F1, F2. split; reflexivity.
Qed.

(** ** Timestamps: the ISO text of a time reads back as that time *)

Lemma digit_value_digit k : 0 <= k <= 9 -> digit_value (Date.digit k) = Some k.
Proof.
  intros H.
  assert (E : k = 0 \/ k = 1 \/ k = 2 \/ k = 3 \/ k = 4 \/ k = 5 \/ k = 6 \/ k = 7
              \/ k = 8 \/ k = 9) by lia.
  repeat (destruct E as [-> | E]; [reflexivity | ]). subst k. reflexivity.
Qed.

Lemma read_digits_cons w acc a rest :
  read_digits (S w) acc (String a rest)
  = match digit_value a with
    | Some v => read_digits w (acc * 10 + v) rest
    | None => None
    end.
Proof. reflexivity. Qed.

Lemma read_digits_snoc w : forall acc s,
  read_digits (S w) acc s
  = match read_digits w acc s with
    | Some (v, String a rest) =>
        match digit_value a with
        | Some x => Some (v * 10 + x, rest)
        | None => None
        end
    | _ => None
    end.
Proof.
  induction w as [ | w IH]; intros acc s.
  - simpl. destruct s as [ | a rest]; [reflexivity | ].
    destruct (digit_value a); reflexivity.
  - destruct s as [ | a rest]; [reflexivity | ].
    rewrite (read_digits_cons (S w)), (read_digits_cons w).
    destruct (digit_value a) as [v | ]; [ | reflexivity].
    apply IH.
Qed.

Lemma string_app_assoc (a b c : string) : (a ++ b) ++ c = a ++ (b ++ c).
Proof. induction a as [ | x a IH]; simpl; [reflexivity | rewrite IH; reflexivity]. Qed.

Lemma read_digits_pad w : forall n acc rest,
  0 <= n < 10 ^ Z.of_nat w ->
  read_digits w acc (Date.pad w n ++ rest) = Some (acc * 10 ^ Z.of_nat w + n, rest).
Proof.
  induction w as [ | w IH]; intros n acc rest H.
  - simpl in *. f_equal. f_equal. lia.
  - rewrite read_digits_snoc.
    change (Date.pad (S w) n) with (Date.pad w (n / 10) ++ String (Date.digit (n mod 10)) "").
    rewrite string_app_assoc. simpl (String _ "" ++ rest).
    rewrite Nat2Z.inj_succ, Z.pow_succ_r in H by lia.
    rewrite IH by (Z.div_mod_to_equations; lia).
    rewrite digit_value_digit by (Z.div_mod_to_equations; lia).
    f_equal. f_equal.
    rewrite Nat2Z.inj_succ, Z.pow_succ_r by lia.
    Z.div_mod_to_equations; lia.
Qed.
Lemma leap_day doe era :
  0 <= doe <= 146096 ->
  let yoe := (doe - doe / 1460 + doe / 36524 - doe / 146096) / 365 in
  let doy := doe - (365 * yoe + yoe / 4 - yoe / 100) in
  doy = 365 -> is_leap (yoe + era * 400 + 1) = true.
Proof.
  intros H yoe doy Hd. unfold is_leap.
  assert (A : (yoe + era * 400 + 1) mod 4 = 0)
    by (subst doy yoe; Z.div_mod_to_equations; lia).
  assert (B : (yoe + era * 400 + 1) mod 100 <> 0 \/ (yoe + era * 400 + 1) mod 400 = 0)
    by (subst doy yoe; Z.div_mod_to_equations; lia).
  rewrite A. simpl. destruct B as [B | B].
  - apply Z.eqb_neq in B. rewrite B. reflexivity.
  - rewrite B. simpl. apply orb_true_r.
Qed.

Lemma civil_in_month day :
  let '(y, m, d) := Date.civil day in
  1 <= m <= 12 /\ 1 <= d <= days_in_month y m.
Proof.
  unfold Date.civil. cbv zeta.
  set (z := day + 719468). set (era := z / 146097).
  set (doe := z - era * 146097).
  assert (Hdoe : 0 <= doe <= 146096) by (subst doe era; Z.div_mod_to_equations; lia).
  clearbody doe era. clear z.
  pose proof (leap_day doe era Hdoe) as Hleap. cbv zeta in Hleap.
  set (yoe := (doe - doe / 1460 + doe / 36524 - doe / 146096) / 365) in *.
  set (doy := doe - (365 * yoe + yoe / 4 - yoe / 100)) in *.
  assert (Hy : 0 <= yoe <= 399 /\ 0 <= doy <= 365)
    by (subst doy yoe; split; Z.div_mod_to_equations; lia).
  clearbody doy yoe.
  set (mp := (5 * doy + 2) / 153).
  assert (Hmp : 153 * mp <= 5 * doy + 2 < 153 * mp + 153)
    by (subst mp; Z.div_mod_to_equations; lia).
  clearbody mp.
  assert (E : mp = 0 \/ mp = 1 \/ mp = 2 \/ mp = 3 \/ mp = 4 \/ mp = 5 \/ mp = 6
              \/ mp = 7 \/ mp = 8 \/ mp = 9 \/ mp = 10 \/ mp = 11) by lia.
  repeat (destruct E as [-> | E];
          [ unfold days_in_month; simpl; split; [lia | ];
            try (Z.div_mod_to_equations; lia) | ]).
  subst mp. change (if 11 <? 10 then 11 + 3 else 11 - 9) with 2.
  change (if 2 <=? 2 then 1 else 0) with 1.
  change ((153 * 11 + 2) / 5) with 337.
  change (days_in_month (yoe + era * 400 + 1) 2)
    with (if is_leap (yoe + era * 400 + 1) then 29 else 28).
  split; [lia | ].
  destruct (Z.eq_dec doy 365) as [D | D].
  - rewrite (Hleap D). lia.
  - destruct (is_leap _); lia.
Qed.

Lemma civil_year day :
  -100000000 <= day <= 100000000 ->
  let '(y, m, d) := Date.civil day in -999999 <= y <= 999999.
Proof.
  intros H. unfold Date.civil. cbv zeta.
  set (z := day + 719468). set (era := z / 146097).
  set (doe := z - era * 146097).
  assert (Hera : -1000 <= era <= 1000) by (subst era z; Z.div_mod_to_equations; lia).
  assert (Hdoe : 0 <= doe <= 146096) by (subst doe era; Z.div_mod_to_equations; lia).
  clearbody doe era. clear z.
  set (yoe := (doe - doe / 1460 + doe / 36524 - doe / 146096) / 365).
  assert (Hy : 0 <= yoe <= 399) by (subst yoe; Z.div_mod_to_equations; lia).
  clearbody yoe.
  destruct (_ <=? 2); lia.
Qed.

Lemma civil_roundtrip day :
  let '(y, m, d) := Date.civil day in days_from_civil y m d = day.
Proof.
  unfold Date.civil, days_from_civil. cbv zeta.
  set (z := day + 719468). set (era := z / 146097).
  set (doe := z - era * 146097).
  assert (Hdoe : 0 <= doe <= 146096) by (subst doe era; Z.div_mod_to_equations; lia).
  assert (Hz : day = era * 146097 + doe - 719468) by (subst doe z; lia).
  clearbody doe era. clear z.
  set (yoe := (doe - doe / 1460 + doe / 36524 - doe / 146096) / 365).
  set (doy := doe - (365 * yoe + yoe / 4 - yoe / 100)).
  assert (Hy : 0 <= yoe <= 399 /\ 0 <= doy <= 365)
    by (subst doy yoe; split; Z.div_mod_to_equations; lia).
  assert (Hdoy : doe = 365 * yoe + yoe / 4 - yoe / 100 + doy) by (subst doy; lia).
  clearbody doy yoe.
  set (mp := (5 * doy + 2) / 153).
  assert (Hmp : 0 <= mp <= 11) by (subst mp; Z.div_mod_to_equations; lia).
  clearbody mp.
  set (m := if mp <? 10 then mp + 3 else mp - 9).
  assert (Hm : (m <=? 2) = negb (mp <? 10)
               /\ (if 2 <? m then m - 3 else m + 9) = mp).
  { subst m. destruct (mp <? 10) eqn:E; [apply Z.ltb_lt in E | apply Z.ltb_ge in E].
    - split; [apply Z.leb_gt; lia | ].
      replace (2 <? mp + 3) with true by (symmetry; apply Z.ltb_lt; lia). lia.
    - split; [apply Z.leb_le; lia | ].
      replace (2 <? mp - 9) with false by (symmetry; apply Z.ltb_ge; lia). lia. }
  destruct Hm as [Hm1 Hm2]. rewrite Hm2. clearbody m.
  rewrite Hm1.
  destruct (mp <? 10); simpl negb; cbv iota.
  - replace (yoe + era * 400 + 0) with (yoe + era * 400) by lia.
    replace ((yoe + era * 400) / 400) with era by (Z.div_mod_to_equations; lia).
    replace (yoe + era * 400 - era * 400) with yoe by lia. lia.
  - replace (yoe + era * 400 + 1 - 1) with (yoe + era * 400) by lia.
    replace ((yoe + era * 400) / 400) with era by (Z.div_mod_to_equations; lia).
    replace (yoe + era * 400 - era * 400) with yoe by lia. lia.
Qed.

Lemma pad_head w : forall n rest,
  exists k s', 0 <= k <= 9 /\ Date.pad (S w) n ++ rest = String (Date.digit k) s'.
Proof.
  induction w as [ | w IH]; intros n rest.
  - exists (n mod 10), rest. split; [Z.div_mod_to_equations; lia | reflexivity].
  - change (Date.pad (S (S w)) n)
      with (Date.pad (S w) (n / 10) ++ String (Date.digit (n mod 10)) "").
    rewrite string_app_assoc. apply IH.
Qed.

Lemma read_year_digit k s :
  0 <= k <= 9 ->
  read_year (String (Date.digit k) s) = read_digits 4 0 (String (Date.digit k) s).
Proof.
  intros H.
  assert (E : k = 0 \/ k = 1 \/ k = 2 \/ k = 3 \/ k = 4 \/ k = 5 \/ k = 6 \/ k = 7
              \/ k = 8 \/ k = 9) by lia.
  repeat (destruct E as [-> | E]; [reflexivity | ]). subst k. reflexivity.
Qed.

Lemma read_year_minus s :
  read_year (String "-" s)
  = match read_digits 6 0 s with
    | Some (y, rest') => if y =? 0 then None else Some (- y, rest')
    | None => None
    end.
Proof. reflexivity. Qed.

Lemma read_year_plus s : read_year (String "+" s) = read_digits 6 0 s.
Proof. reflexivity. Qed.

Lemma expect_same c s : expect c (String c s) = Some s.
Proof. unfold expect. rewrite Ascii.eqb_refl. reflexivity. Qed.

Lemma read_year_text y rest :
  -999999 <= y <= 999999 ->
  read_year (Date.year_text y ++ rest) = Some (y, rest).
Proof.
  intros H. unfold Date.year_text.
  destruct ((0 <=? y) && (y <=? 9999)) eqn:E.
  - apply andb_true_iff in E. destruct E as [E1 E2].
    apply Z.leb_le in E1, E2.
    destruct (pad_head 3 y rest) as (k & s' & Hk & Es).
    rewrite Es, read_year_digit, <- Es by exact Hk.
    rewrite read_digits_pad by (change (10 ^ Z.of_nat 4) with 10000; lia).
    reflexivity.
  - destruct (y <? 0) eqn:N; [apply Z.ltb_lt in N | apply Z.ltb_ge in N].
    + rewrite string_app_assoc.
      change ("-" ++ Date.pad 6 (Z.abs y) ++ rest)%string
        with (String "-" (Date.pad 6 (Z.abs y) ++ rest)).
      rewrite read_year_minus.
      rewrite read_digits_pad by (change (10 ^ Z.of_nat 6) with 1000000; lia).
      replace (0 * 10 ^ Z.of_nat 6 + Z.abs y =? 0) with false
        by (symmetry; apply Z.eqb_neq; lia).
      f_equal. f_equal. lia.
    + rewrite string_app_assoc.
      change ("+" ++ Date.pad 6 (Z.abs y) ++ rest)%string
        with (String "+" (Date.pad 6 (Z.abs y) ++ rest)).
      rewrite read_year_plus.
      rewrite read_digits_pad by (change (10 ^ Z.of_nat 6) with 1000000; lia).
      f_equal. f_equal. lia.
Qed.

Lemma time_of_day_split ms :
  0 <= ms ->
  ms / 3600000 * 3600000 + ms / 60000 mod 60 * 60000 + ms / 1000 mod 60 * 1000
  + ms mod 1000 = ms.
Proof.
  intros H.
  replace (ms / 3600000) with (ms / 1000 / 60 / 60)
    by (rewrite !Z.div_div by lia; reflexivity).
  replace (ms / 60000) with (ms / 1000 / 60)
    by (rewrite !Z.div_div by lia; reflexivity).
  Z.div_mod_to_equations; lia.
Qed.

Lemma toISOString_shape t :
  Date.toISOString t
  = let '(y, m, d) := Date.civil (t / Date.msPerDay) in
    let ms := t mod Date.msPerDay in
    (Date.year_text y ++ String "-" (Date.pad 2 m ++ String "-" (Date.pad 2 d
       ++ String "T" (Date.pad 2 (ms / 3600000)
       ++ String ":" (Date.pad 2 (ms / 60000 mod 60)
       ++ String ":" (Date.pad 2 (ms / 1000 mod 60)
       ++ String "." (Date.pad 3 (ms mod 1000) ++ "Z")))))))%string.
Proof.
  unfold Date.toISOString. destruct (Date.civil _) as [[y m] d]. reflexivity.
Qed.

Lemma parse_toISOString t : valid_time t -> parse_iso (Date.toISOString t) = Some t.
Proof.
  intros H. rewrite toISOString_shape. unfold parse_iso.
  assert (Hday : -100000000 <= t / Date.msPerDay <= 100000000)
    by (unfold valid_time, Date.msPerDay in *; Z.div_mod_to_equations; lia).
  assert (Hms : 0 <= t mod Date.msPerDay < 86400000)
    by (unfold Date.msPerDay; Z.div_mod_to_equations; lia).
  assert (Ht : t = t / Date.msPerDay * Date.msPerDay + t mod Date.msPerDay)
    by (unfold Date.msPerDay; Z.div_mod_to_equations; lia).
  set (day := t / Date.msPerDay) in *. set (ms := t mod Date.msPerDay) in *.
  clearbody day ms.
  pose proof (civil_roundtrip day) as R.
  pose proof (civil_in_month day) as M.
  pose proof (civil_year day Hday) as Y.
  destruct (Date.civil day) as [[y m] d].
  destruct M as [Hm Hd].
  assert (Hd' : d <= 31) by (unfold days_in_month in Hd;
    repeat match type of Hd with context [if ?b then _ else _] => destruct b end; lia).
  cbv zeta.
  change (10 ^ Z.of_nat 2) with 100 in *.
  rewrite read_year_text by exact Y.
  rewrite expect_same, read_digits_pad by (change (10 ^ Z.of_nat 2) with 100; lia).
  rewrite expect_same, read_digits_pad by (change (10 ^ Z.of_nat 2) with 100; lia).
  rewrite expect_same, read_digits_pad
    by (change (10 ^ Z.of_nat 2) with 100; Z.div_mod_to_equations; lia).
  rewrite expect_same, read_digits_pad
    by (change (10 ^ Z.of_nat 2) with 100; Z.div_mod_to_equations; lia).
  rewrite expect_same, read_digits_pad
    by (change (10 ^ Z.of_nat 2) with 100; Z.div_mod_to_equations; lia).
  rewrite expect_same, read_digits_pad
    by (change (10 ^ Z.of_nat 3) with 1000; Z.div_mod_to_equations; lia).
  cbv iota.
  rewrite !Z.mul_0_l, !Z.add_0_l.
  replace ((1 <=? m) && (m <=? 12) && (1 <=? d) && (d <=? days_in_month y m)
           && (ms / 3600000 <=? 23) && (ms / 60000 mod 60 <=? 59)
           && (ms / 1000 mod 60 <=? 59)) with true.
  - rewrite R. apply f_equal.
    pose proof (time_of_day_split ms (proj1 Hms)).
    unfold Date.msPerDay in *. lia.
  - symmetry. rewrite !andb_true_iff, !Z.leb_le.
    repeat split; try lia; Z.div_mod_to_equations; lia.
Qed.

Lemma digit_is_not_T k : 0 <= k <= 9 -> Ascii.eqb (Date.digit k) "T" = false.
Proof.
  intros H.
  assert (E : k = 0 \/ k = 1 \/ k = 2 \/ k = 3 \/ k = 4 \/ k = 5 \/ k = 6 \/ k = 7
              \/ k = 8 \/ k = 9) by lia.
  repeat (destruct E as [-> | E]; [reflexivity | ]). subst k. reflexivity.
Qed.

Lemma before_T_pad w : forall n rest,
  Date.before "T" (Date.pad w n ++ rest) = (Date.pad w n ++ Date.before "T" rest)%string.
Proof.
  induction w as [ | w IH]; intros n rest.
  - reflexivity.
  - change (Date.pad (S w) n)
      with (Date.pad w (n / 10) ++ String (Date.digit (n mod 10)) "")%string.
    rewrite !string_app_assoc.
    change (String (Date.digit (n mod 10)) "" ++ rest)%string
      with (String (Date.digit (n mod 10)) rest).
    rewrite IH.
    change (Date.before "T" (String (Date.digit (n mod 10)) rest))
      with (if Ascii.eqb (Date.digit (n mod 10)) "T" then ""%string
            else String (Date.digit (n mod 10)) (Date.before "T" rest)).
    rewrite digit_is_not_T by (Z.div_mod_to_equations; lia).
    reflexivity.
Qed.

Lemma before_T_year y rest :
  Date.before "T" (Date.year_text y ++ rest)
  = (Date.year_text y ++ Date.before "T" rest)%string.
Proof.
  unfold Date.year_text.
  destruct ((0 <=? y) && (y <=? 9999)); [apply before_T_pad | ].
  destruct (y <? 0); rewrite !string_app_assoc.
  - change (Date.before "T" ("-" ++ Date.pad 6 (Z.abs y) ++ rest))
      with (String "-" (Date.before "T" (Date.pad 6 (Z.abs y) ++ rest))).
    rewrite before_T_pad. reflexivity.
  - change (Date.before "T" ("+" ++ Date.pad 6 (Z.abs y) ++ rest))
      with (String "+" (Date.before "T" (Date.pad 6 (Z.abs y) ++ rest))).
    rewrite before_T_pad. reflexivity.
Qed.

(** What [toISOString().split("T")[0]] gives is the date part. *)
Lemma before_T_toISOString t :
  Date.before "T" (Date.toISOString t) = iso_date t.
Proof.
  rewrite toISOString_shape. unfold iso_date.
  destruct (Date.civil _) as [[y m] d]. cbv zeta.
  rewrite before_T_year.
  change (Date.before "T" (String "-" ?s)) with (String "-" (Date.before "T" s)).
  rewrite before_T_pad.
  change (Date.before "T" (String "-" ?s)) with (String "-" (Date.before "T" s)).
  rewrite before_T_pad.
  reflexivity.
Qed.

(** ** Export *)


(** The three fields of the document [handleExportData] serialises. *)
Lemma export_fields (d : json) (st : option json) (text : string) :
  let doc :=
    stringify
      (JObj ([("data", d)]
             ++ match st with Some x => [("statistics", x)] | None => [] end
             ++ [("exportedAt", JStr text)])%list) in
  field "data" doc = Some (stringify d)
  /\ field "statistics" doc = option_map stringify st
  /\ field "exportedAt" doc = Some (JStr text).
Proof. destruct st; repeat split; reflexivity. Qed.







Lemma failed_load_keeps_data_witness :
  App.uhiData
    (Shell.ui (Shell.step sample_vm
                 (Shell.steps sample_vm sample_start sample_session)
                 sample_failure))
  = Some sample_points
  /\ Failed "HTTP error! status: 500"
       (Shell.ui (Shell.step sample_vm
                    (Shell.steps sample_vm sample_start sample_session)
                    sample_failure)).
Proof.
  destruct (failed_load_keeps_data sample_vm (of_Z 100) (of_Z 30) App.initial
              (of_Z 0) 1767225600000 sample_session sample_failure)
    as (_ & _ & H).
  destruct (H eq_refl) as [E _].
  split.
  - fold sample_start in E. rewrite E. reflexivity.
  - split; reflexivity.
Defined.

(** ** The map renderer *)

Lemma map_from_length data : forall i,
  List.length (MapView.map_from i data) = List.length data.
Proof.
  induction data as [ | d data IH]; intros i; simpl; [reflexivity | ].
  rewrite IH. reflexivity.
Qed.

Lemma map_from_nth data : forall i j d,
  nth_error data j = Some d ->
  nth_error (MapView.map_from i data) j = Some (MapView.marker_of (i + j) d).
Proof.
  induction data as [ | x data IH]; intros i j d H.
  - destruct j; discriminate H.
  - destruct j as [ | j]; simpl in *.
    + injection H as ->. rewrite Nat.add_0_r. reflexivity.
    + rewrite (IH (S i) j d H). f_equal. f_equal. lia.
Qed.

Lemma strict_eq_apart z a b :
  a <> b -> strict_eq z (of_Z a) = true -> strict_eq z (of_Z b) = false.
Proof.
  intros Hab H. destruct z as [ | | | q]; try discriminate H.
  simpl in *. apply Qeq_bool_iff in H.
  destruct (Qeq_bool q (inject_Z b)) eqn:E; [ | reflexivity].
  apply Qeq_bool_iff in E. rewrite H in E.
  unfold Qeq in E. simpl in E. lia.
Qed.

Lemma marker_of_marks i d : marks (MapView.marker_of i d) d.
Proof.
  unfold marks, MapView.marker_of; simpl.
  repeat split.
  - intros ->. reflexivity.
  - intros H. rewrite (strict_eq_apart _ 1 2 ltac:(lia) H), H. reflexivity.
  - intros H.
    rewrite (strict_eq_apart _ 0 2 ltac:(lia) H), (strict_eq_apart _ 0 1 ltac:(lia) H).
    reflexivity.
Qed.

Lemma map_from_marks data : forall i, Forall2 marks (MapView.map_from i data) data.
Proof.
  induction data as [ | d data IH]; intros i; simpl; constructor.
  - apply marker_of_marks.
  - apply IH.
Qed.

(** C7, as stated, fails: [MapView] never looks at the selected zone.  With
    zone 2 selected and one point of zone 0 it renders one marker, where the
    claim excludes the point. *)
Lemma MapView_ignores_filter : ~ renders_filtered_points.
Proof.
  intros H.
  specialize (H (MapView.mkProps None (App.OnlyZone (of_Z 2)) false)
                [mkPoint (of_Z 20) (of_Z 85) (of_Z 0) "Maintain green cover"]).
  inversion H.
Qed.

(** C7 (amended): [MapView] renders exactly one marker for every point of
    its collection, in order and whatever zone is selected (it reads no
    filter): the marker of a point is at the coordinate of the point, has
    its recommendation as tooltip and is red for zone 2, orange for zone 1
    and green for zone 0. *)
Theorem MapView_renders_every_point
  (props : MapView.props) (points : list SamplePoint) :
  Forall2 marks (MapView.render props points) points
  /\ List.length (MapView.render props points) = List.length points
  /\ (forall i d,
        nth_error points i = Some d ->
        exists m,
          nth_error (MapView.render props points) i = Some m
          /\ MapView.key m = i
          /\ marks m d)
  /\ (forall props', MapView.render props' points = MapView.render props points).
Proof.
  unfold MapView.render. split; [apply map_from_marks | ].
  split; [apply map_from_length | ].
  split; [ | reflexivity].
  intros i d H. exists (MapView.marker_of i d).
  split; [exact (map_from_nth points 0 i d H) | ].
  split; [reflexivity | apply marker_of_marks].
Qed.

Lemma MapView_renders_every_point_witness :
  exists m0 m1 m2,
    MapView.render (MapView.mkProps (Some sample_points) (App.OnlyZone (of_Z 2)) false)
                   sample_points = [m0; m1; m2]
    /\ MapView.background m0 = "green"%string
    /\ MapView.background m1 = "orange"%string
    /\ MapView.background m2 = "red"%string.
Proof.
  pose proof (MapView_renders_every_point
                (MapView.mkProps (Some sample_points) (App.OnlyZone (of_Z 2)) false)
                sample_points) as (_ & _ & N & _).
  destruct (N 0%nat _ eq_refl) as (m0 & E0 & _ & (_ & _ & _ & _ & _ & G0)).
  destruct (N 1%nat _ eq_refl) as (m1 & E1 & _ & (_ & _ & _ & _ & G1 & _)).
  destruct (N 2%nat _ eq_refl) as (m2 & E2 & _ & (_ & _ & _ & G2 & _ & _)).
  exists m0, m1, m2.
  split; [ | split; [exact (G0 eq_refl) | split; [exact (G1 eq_refl) | exact (G2 eq_refl)]]].
  injection E0 as <-. injection E1 as <-. injection E2 as <-. reflexivity.
Defined.

(** ** The life cycle of the shell *)

Lemma loadUHIData_keeps_healthy vm n d s :
  App.backendHealthy (settle (App.loadUHIData vm n d) s) = App.backendHealthy s.
Proof.
  destruct (UHIViewModel.validateParameters n d) as [ | e es] eqn:V.
  - rewrite (loadUHIData_valid vm n d V). destruct s; reflexivity.
  - rewrite (loadUHIData_invalid vm n d e es V). destruct s; reflexivity.
Qed.

(** The closed form of a dispatch that leaves [backendHealthy] as it is. *)
Lemma dispatch_spec vm h c :
  App.backendHealthy (settle h (Shell.ui c)) = App.backendHealthy (Shell.ui c) ->
  Shell.dispatch vm h c
  = Shell.mkConfig
      (settle h (Shell.ui c))
      (Shell.inflight c ++ match awaits h with Some rk => [rk] | None => [] end)
      (Shell.netlog c ++ match awaits h with Some (req, _) => [req] | None => [] end)
      (Shell.downloads c) (Shell.clock c) (Shell.lastScrollY c)
      (Shell.maplog c ++ mounts (Shell.ui c) (settle h (Shell.ui c))).
Proof.
  intros H. rewrite dispatch_same_health by exact H.
  rewrite render_spec, run_spec. reflexivity.
Qed.

Lemma dispatch_set vm u c :
  App.backendHealthy (App.apply u (Shell.ui c)) = App.backendHealthy (Shell.ui c) ->
  Shell.dispatch vm (set u) c
  = Shell.mkConfig (App.apply u (Shell.ui c)) (Shell.inflight c) (Shell.netlog c)
      (Shell.downloads c) (Shell.clock c) (Shell.lastScrollY c)
      (Shell.maplog c ++ mounts (Shell.ui c) (App.apply u (Shell.ui c))).
Proof.
  intros H. rewrite dispatch_spec by exact H. simpl.
  rewrite !app_nil_r. reflexivity.
Qed.

(** A phase looks at the pending awaits, the log, and six fields of the
    state; the parameters and the error only while loading; the [MapView]
    requests only while the backend is not healthy. *)
Lemma phase_agree vm c c' :
  Shell.inflight c' = Shell.inflight c ->
  Shell.netlog c' = Shell.netlog c ->
  App.backendHealthy (Shell.ui c') = App.backendHealthy (Shell.ui c) ->
  App.loading (Shell.ui c') = App.loading (Shell.ui c) ->
  App.uhiData (Shell.ui c') = App.uhiData (Shell.ui c) ->
  (App.loading (Shell.ui c) = true ->
   App.error (Shell.ui c') = App.error (Shell.ui c)
   /\ App.numPoints (Shell.ui c') = App.numPoints (Shell.ui c)
   /\ App.daysBack (Shell.ui c') = App.daysBack (Shell.ui c)) ->
  (App.uhiData (Shell.ui c) = None -> Shell.maplog c' = Shell.maplog c) ->
  phase vm c -> phase vm c'.
Proof.
  intros Ei En Eb El Eu Hl Hm P.
  destruct P as [i l b lo er np db ud ml | i l b lo ud ml | ps i l F h b lo
                 | ps n d i l F h b lo er np db].
  - destruct (Hl lo) as (E1 & E2 & E3). specialize (Hm ud).
    apply HealthChecking; congruence.
  - specialize (Hm ud). apply Unhealthy; congruence.
  - apply (Idle vm c' ps); congruence.
  - destruct (Hl lo) as (E1 & E2 & E3).
    apply (LoadingData vm c' ps n d); congruence.
Qed.

Lemma phase_loading_false vm c :
  phase vm c -> App.loading (Shell.ui c) = false ->
  Shell.inflight c = [].
Proof.
  intros P L. destruct P; try assumption; congruence.
Qed.

(** A render takes a phase to the same phase. *)
Lemma phase_render vm before c : phase vm c -> phase vm (Shell.render before c).
Proof.
  intros P. rewrite render_spec.
  apply phase_agree with (c := c); try reflexivity; [auto | | exact P].
  intros U. simpl. rewrite mounts_no_data by exact U. apply app_nil_r.
Qed.

(** The step changed fields of the state that the phase does not look at. *)
Ltac agree c P :=
  apply phase_agree with (c := c);
  [ reflexivity | reflexivity
  | try (destruct (Shell.ui c); reflexivity)
  | try (destruct (Shell.ui c); reflexivity)
  | try (destruct (Shell.ui c); reflexivity)
  | try solve [intros _; destruct (Shell.ui c); simpl; auto]
  | try solve [ intros _; reflexivity
              | intros U; simpl;
                rewrite mounts_no_data
                  by (destruct (Shell.ui c); simpl in *; exact U);
                apply app_nil_r ]
  | exact P ].

Ltac set_field c P :=
  rewrite dispatch_set by (destruct (Shell.ui c); reflexivity);
  agree c P.

Lemma step_phase_quiet vm c e :
  may_fetch e = false -> phase vm c -> phase vm (Shell.step vm c e).
Proof.
  intros M P.
  destruct e as [i o | ms | y | | | lag | v | v | b | | | | z | pt];
    try discriminate M; simpl.
  - (* Tick *) agree c P.
  - (* Scroll *)
    unfold App.handleScroll.
    destruct (lt y (of_Z 20)); [ | destruct (lt y (Shell.lastScrollY c))];
      set_field c P.
  - (* Export *)
    destruct (App.handleExportData _ _ _); [agree c P | exact P].
  - destruct (App.loading (Shell.ui c)) eqn:L; [exact P | ].
    set_field c P. intros L'; congruence.
  - destruct (App.loading (Shell.ui c)) eqn:L; [exact P | ].
    set_field c P. intros L'; congruence.
  - destruct (App.loading (Shell.ui c) || negb (Shell.has_data (Shell.ui c)));
      [exact P | set_field c P].
  - (* DismissError *)
    destruct (Shell.is_truthy (App.error (Shell.ui c))) eqn:T; [ | exact P].
    set_field c P. intros L.
    assert (E : App.error (Shell.ui c) = None) by (destruct P; congruence).
    rewrite E in T. discriminate T.
  - destruct (App.loading (Shell.ui c) || negb (Shell.has_data (Shell.ui c)));
      [exact P | set_field c P].
  - destruct (App.loading (Shell.ui c) || negb (Shell.has_data (Shell.ui c)));
      [exact P | set_field c P].
  - unfold App.handleZoneFilter. set_field c P.
  - unfold App.handlePointClick. set_field c P.
Qed.

Lemma data_requests_snoc vm ps n d :
  (data_requests vm ps ++ [uhi_request vm n d])%list = data_requests vm (ps ++ [(n, d)]).
Proof. unfold data_requests. rewrite map_app. reflexivity. Qed.

(** Starting a load cycle when nothing is pending: a validated request goes
    out, or validation fails and nothing does. *)
Lemma start_load_phase vm c ps :
  Shell.inflight c = [] ->
  Shell.netlog c = health_request vm :: data_requests vm ps ->
  Forall validated ps ->
  (ps = [] -> App.numPoints (Shell.ui c) = of_Z 100
              /\ App.daysBack (Shell.ui c) = of_Z 30) ->
  (ps <> [] -> hd_error ps = Some (of_Z 100, of_Z 30)) ->
  App.backendHealthy (Shell.ui c) = true ->
  phase vm (Shell.run (App.loadUHIData vm (App.numPoints (Shell.ui c))
                                       (App.daysBack (Shell.ui c))) c).
Proof.
  intros Hi Hl F H0 H1 Hb. rewrite run_spec.
  destruct (UHIViewModel.validateParameters (App.numPoints (Shell.ui c))
                                            (App.daysBack (Shell.ui c)))
    as [ | e es] eqn:V.
  - rewrite (loadUHIData_valid vm _ _ V). simpl awaits. cbv iota beta.
    apply (LoadingData vm _ ps (App.numPoints (Shell.ui c)) (App.daysBack (Shell.ui c)));
      simpl.
    + rewrite Hi. reflexivity.
    + rewrite Hl. simpl. rewrite data_requests_snoc. reflexivity.
    + apply Forall_app. split; [exact F | ]. constructor; [exact V | constructor].
    + destruct ps as [ | p ps].
      * destruct (H0 eq_refl) as [-> ->]. reflexivity.
      * simpl. apply (H1 ltac:(discriminate)).
    + destruct (Shell.ui c); simpl in *; exact Hb.
    + destruct (Shell.ui c); reflexivity.
    + destruct (Shell.ui c); reflexivity.
    + destruct (Shell.ui c); reflexivity.
    + destruct (Shell.ui c); reflexivity.
  - rewrite (loadUHIData_invalid vm _ _ e es V). simpl awaits. cbv iota beta.
    destruct ps as [ | p ps].
    + exfalso. destruct (H0 eq_refl) as [E1 E2]. rewrite E1, E2 in V.
      discriminate V.
    + apply (Idle vm _ (p :: ps)); simpl.
      * rewrite Hi. reflexivity.
      * rewrite Hl, app_nil_r. reflexivity.
      * exact F.
      * apply (H1 ltac:(discriminate)).
      * destruct (Shell.ui c); simpl in *; exact Hb.
      * destruct (Shell.ui c); reflexivity.
Qed.

Lemma nth_error_single {A} (x : A) i y :
  nth_error [x] i = Some y -> i = 0%nat /\ y = x.
Proof.
  destruct i as [ | i]; simpl.
  - intros E. injection E as <-. auto.
  - destruct i; discriminate.
Qed.

Lemma pending_health_cases vm o :
  pending_health vm o
  = if healthy o
    then Update (App.setBackendHealthy true) (Return tt)
    else
      Update (App.setBackendHealthy false)
        (Update (App.setError
                   (Some "Backend server is not responding. Please try again later."))
           (Update (App.setLoading false) (Return tt))).
Proof.
  rewrite pending_health_steps. destruct o as [e | r]; reflexivity.
Qed.

(** The step that delivers the answer to the health check, before any data:
    no [MapView] is mounted by either of its two renders. *)
Lemma health_answer_step vm c o :
  Shell.inflight c = [(health_request vm, pending_health vm)] ->
  App.backendHealthy (Shell.ui c) = false ->
  App.numPoints (Shell.ui c) = of_Z 100 ->
  App.daysBack (Shell.ui c) = of_Z 30 ->
  App.uhiData (Shell.ui c) = None ->
  Shell.step vm c (Shell.Deliver 0 o)
  = if healthy o
    then Shell.mkConfig
           (commit [App.setBackendHealthy true; App.setLoading true;
                    App.setError None] (Shell.ui c))
           [(uhi_request vm (of_Z 100) (of_Z 30), pending_load vm)]
           (Shell.netlog c ++ [uhi_request vm (of_Z 100) (of_Z 30)])
           (Shell.downloads c) (Shell.clock c) (Shell.lastScrollY c)
           (Shell.maplog c)
    else Shell.mkConfig
           (commit [App.setBackendHealthy false; App.setError (Some banner);
                    App.setLoading false] (Shell.ui c))
           [] (Shell.netlog c)
           (Shell.downloads c) (Shell.clock c) (Shell.lastScrollY c)
           (Shell.maplog c).
Proof.
  intros Ei Eb Enp Edb Eud. simpl. rewrite Ei. simpl nth_error. simpl Shell.drop_nth.
  unfold Shell.dispatch. rewrite pending_health_cases, render_spec, run_spec.
  destruct (healthy o); simpl Shell.ui; simpl awaits; cbv iota beta.
  - replace (App.backendHealthy (settle _ (Shell.ui c))) with true
      by (destruct (Shell.ui c); reflexivity).
    rewrite Eb. simpl Bool.eqb. cbv iota.
    unfold App.effect_backendHealthy.
    replace (App.backendHealthy (settle _ (Shell.ui c))) with true
      by (destruct (Shell.ui c); reflexivity).
    replace (App.numPoints (settle _ (Shell.ui c))) with (of_Z 100)
      by (destruct (Shell.ui c); simpl in *; congruence).
    replace (App.daysBack (settle _ (Shell.ui c))) with (of_Z 30)
      by (destruct (Shell.ui c); simpl in *; congruence).
    rewrite (loadUHIData_valid vm (of_Z 100) (of_Z 30) eq_refl).
    rewrite render_spec, run_spec.
    simpl. rewrite !app_nil_r.
    rewrite !mounts_no_data by (destruct (Shell.ui c); simpl in *; exact Eud).
    rewrite !app_nil_r. destruct (Shell.ui c); reflexivity.
  - replace (App.backendHealthy (settle _ (Shell.ui c))) with false
      by (destruct (Shell.ui c); reflexivity).
    rewrite Eb. simpl. rewrite !app_nil_r.
    rewrite mounts_no_data by (destruct (Shell.ui c); simpl in *; exact Eud).
    rewrite app_nil_r. reflexivity.
Qed.

(** The step that delivers the answer to the pending data request. *)
Lemma load_answer_step vm c req o :
  Shell.inflight c = [(req, pending_load vm)] ->
  Shell.step vm c (Shell.Deliver 0 o)
  = Shell.mkConfig (settle (pending_load vm o) (Shell.ui c)) [] (Shell.netlog c)
                   (Shell.downloads c) (Shell.clock c) (Shell.lastScrollY c)
                   (Shell.maplog c
                    ++ mounts (Shell.ui c) (settle (pending_load vm o) (Shell.ui c))).
Proof.
  intros Ei. simpl. rewrite Ei. simpl nth_error. simpl Shell.drop_nth.
  rewrite dispatch_spec
    by (rewrite pending_load_steps; destruct (loaded_payload o);
        simpl; destruct (Shell.ui c); reflexivity).
  rewrite pending_load_steps.
  destruct (loaded_payload o); simpl; rewrite !app_nil_r; reflexivity.
Qed.

(** Every event takes a phase of the life cycle to a phase. *)
Lemma step_phase vm c e : phase vm c -> phase vm (Shell.step vm c e).
Proof.
  intros P.
  destruct (may_fetch e) eqn:M; [ | apply step_phase_quiet; assumption].
  destruct e as [i o | | | | | | | | | | | | | ]; try discriminate M.
  - (* Deliver *)
    destruct (nth_error (Shell.inflight c) i) as [[req k] | ] eqn:Hi;
      [ | simpl; rewrite Hi; exact P].
    destruct P as [Ei El Eb Elo Eer Enp Edb Eud Eml | Ei El Eb Elo Eud Eml
                   | ps Ei El F Eh Eb Elo | ps n d Ei El F Eh Eb Elo Eer Enp Edb];
      rewrite Ei in Hi; try (destruct i; discriminate Hi).
    + (* the health answer *)
      apply nth_error_single in Hi. destruct Hi as [-> E]. injection E as -> ->.
      rewrite (health_answer_step vm c o Ei Eb Enp Edb Eud).
      destruct (healthy o).
      * apply (LoadingData vm _ [] (of_Z 100) (of_Z 30)); simpl;
          try (destruct (Shell.ui c); reflexivity).
        -- rewrite El. reflexivity.
        -- constructor; [reflexivity | constructor].
        -- destruct (Shell.ui c); simpl in *; exact Enp.
        -- destruct (Shell.ui c); simpl in *; exact Edb.
      * apply Unhealthy; simpl; try (destruct (Shell.ui c); reflexivity).
        -- exact El.
        -- destruct (Shell.ui c); simpl in *; exact Eud.
        -- exact Eml.
    + (* the answer to the data request *)
      apply nth_error_single in Hi. destruct Hi as [-> E]. injection E as -> ->.
      rewrite (load_answer_step vm c _ o Ei), pending_load_steps.
      apply (Idle vm _ (ps ++ [(n, d)])); simpl.
      * reflexivity.
      * exact El.
      * exact F.
      * exact Eh.
      * destruct (loaded_payload o); destruct (Shell.ui c); simpl in *; exact Eb.
      * destruct (loaded_payload o); destruct (Shell.ui c); reflexivity.
  - (* Refresh *)
    simpl.
    destruct (App.loading (Shell.ui c) || negb (App.backendHealthy (Shell.ui c)))
      eqn:G; [exact P | ].
    apply orb_false_iff in G. destruct G as [G1 G2].
    apply negb_false_iff in G2.
    unfold App.handleRefresh.
    rewrite dispatch_same_health by apply loadUHIData_keeps_healthy.
    apply phase_render.
    destruct P as [Ei El Eb Elo Eer Enp Edb Eud Eml | Ei El Eb Elo Eud Eml
                   | ps Ei El F Eh Eb Elo | ps n d Ei El F Eh Eb Elo Eer Enp Edb];
      try congruence.
    apply (start_load_phase vm c ps); auto.
    intros ->. discriminate Eh.
  - (* Apply *)
    simpl.
    destruct (App.loading (Shell.ui c) || negb (App.backendHealthy (Shell.ui c)))
      eqn:G; [exact P | ].
    apply orb_false_iff in G. destruct G as [G1 G2].
    apply negb_false_iff in G2.
    unfold App.handleApplyFilters.
    rewrite dispatch_same_health by apply loadUHIData_keeps_healthy.
    apply phase_render.
    destruct P as [Ei El Eb Elo Eer Enp Edb Eud Eml | Ei El Eb Elo Eud Eml
                   | ps Ei El F Eh Eb Elo | ps n d Ei El F Eh Eb Elo Eer Enp Edb];
      try congruence.
    apply (start_load_phase vm c ps); auto.
    intros ->. discriminate Eh.
Qed.

Lemma steps_phase vm evs : forall c, phase vm c -> phase vm (Shell.steps vm c evs).
Proof.
  induction evs as [ | e evs IH]; intros c P; simpl; [exact P | ].
  apply IH, step_phase, P.
Qed.

Lemma mounted_phase vm scrollY now : phase vm (Shell.mounted vm scrollY now).
Proof. rewrite mounted_spec. apply HealthChecking; reflexivity. Qed.

(** Every reachable configuration is in a phase of the life cycle. *)
Lemma reachable_phase vm scrollY now evs :
  phase vm (Shell.steps vm (Shell.mounted vm scrollY now) evs).
Proof. apply steps_phase, mounted_phase. Qed.

(** An event that is neither a delivery nor Refresh nor Apply leaves the
    requests and the awaits of the shell as they are. *)
Lemma quiet_step_network vm c e :
  may_fetch e = false ->
  Shell.netlog (Shell.step vm c e) = Shell.netlog c
  /\ Shell.inflight (Shell.step vm c e) = Shell.inflight c
  /\ App.backendHealthy (Shell.ui (Shell.step vm c e))
     = App.backendHealthy (Shell.ui c).
Proof.
  intros M.
  destruct e as [i o | ms | y | | | lag | v | v | b | | | | z | pt];
    try discriminate M; simpl.
  - repeat split.
  - unfold App.handleScroll.
    destruct (lt y (of_Z 20)); [ | destruct (lt y (Shell.lastScrollY c))];
      rewrite dispatch_set by (destruct (Shell.ui c); reflexivity);
      repeat split; destruct (Shell.ui c); reflexivity.
  - destruct (App.handleExportData _ _ _); repeat split.
  - destruct (App.loading (Shell.ui c)); [repeat split | ].
    rewrite dispatch_set by (destruct (Shell.ui c); reflexivity).
    repeat split; destruct (Shell.ui c); reflexivity.
  - destruct (App.loading (Shell.ui c)); [repeat split | ].
    rewrite dispatch_set by (destruct (Shell.ui c); reflexivity).
    repeat split; destruct (Shell.ui c); reflexivity.
  - destruct (_ || _); [repeat split | ].
    rewrite dispatch_set by (destruct (Shell.ui c); reflexivity).
    repeat split; destruct (Shell.ui c); reflexivity.
  - destruct (Shell.is_truthy _); [ | repeat split].
    rewrite dispatch_set by (destruct (Shell.ui c); reflexivity).
    repeat split; destruct (Shell.ui c); reflexivity.
  - destruct (_ || _); [repeat split | ].
    rewrite dispatch_set by (destruct (Shell.ui c); reflexivity).
    repeat split; destruct (Shell.ui c); reflexivity.
  - destruct (_ || _); [repeat split | ].
    rewrite dispatch_set by (destruct (Shell.ui c); reflexivity).
    repeat split; destruct (Shell.ui c); reflexivity.
  - unfold App.handleZoneFilter.
    rewrite dispatch_set by (destruct (Shell.ui c); reflexivity).
    repeat split; destruct (Shell.ui c); reflexivity.
  - unfold App.handlePointClick.
    rewrite dispatch_set by (destruct (Shell.ui c); reflexivity).
    repeat split; destruct (Shell.ui c); reflexivity.
Qed.

(** With the backend unhealthy and nothing pending, no event issues a
    request or makes the backend healthy. *)
Lemma unhealthy_step vm c e :
  Shell.inflight c = [] ->
  App.backendHealthy (Shell.ui c) = false ->
  Shell.inflight (Shell.step vm c e) = []
  /\ App.backendHealthy (Shell.ui (Shell.step vm c e)) = false.
Proof.
  intros Hi Hb.
  destruct (may_fetch e) eqn:M.
  - destruct e; try discriminate M; simpl.
    + rewrite Hi. destruct i; simpl; auto.
    + rewrite Hb, orb_true_r. auto.
    + rewrite Hb, orb_true_r. auto.
  - destruct (quiet_step_network vm c e M) as (_ & E1 & E2).
    rewrite E1, E2. auto.
Qed.

(** *** The requests of [MapView] *)

Lemma mounts_Forall before after :
  Forall (fun r => r = MapView.mount_request) (mounts before after).
Proof.
  unfold mounts. destruct (_ && _); repeat constructor.
Qed.

Lemma mounts_hidden (before after : App.state) :
  Shell.shows_map after = false -> mounts before after = [].
Proof.
  intros E. unfold mounts. rewrite E, andb_false_r. reflexivity.
Qed.

(** A render that follows a render without a map, with the state after it:
    the request of the mount, if the map is shown. *)
Lemma mounts_after_loading before after :
  App.loading before = true ->
  App.loading after = false ->
  mounts before after
  = if Shell.has_data after && String.eqb (App.activeView after) "map"
    then [MapView.mount_request] else [].
Proof.
  intros E1 E2. unfold mounts, Shell.shows_map. rewrite E1, E2. reflexivity.
Qed.

(** Starting a load cycle mounts nothing: the render shows the spinner, or,
    when validation fails, what it showed before. *)
Lemma refresh_mounts vm s n d :
  App.loading s = false ->
  mounts s (settle (App.loadUHIData vm n d) s) = [].
Proof.
  intros L.
  destruct (UHIViewModel.validateParameters n d) as [ | e es] eqn:V.
  - rewrite (loadUHIData_valid vm n d V). apply mounts_loading.
    destruct s; reflexivity.
  - rewrite (loadUHIData_invalid vm n d e es V). apply mounts_same.
    unfold Shell.shows_map, Shell.has_data. destruct s; simpl in *.
    rewrite L. reflexivity.
Qed.

(** A setter call that leaves [loading], [uhiData] and [activeView] as they
    are mounts nothing. *)
Lemma set_mounts u s :
  App.loading (App.apply u s) = App.loading s ->
  App.uhiData (App.apply u s) = App.uhiData s ->
  App.activeView (App.apply u s) = App.activeView s ->
  mounts s (App.apply u s) = [].
Proof.
  intros E1 E2 E3. apply mounts_same.
  unfold Shell.shows_map, Shell.has_data. rewrite E1, E2, E3. reflexivity.
Qed.

Ltac no_mount c :=
  rewrite dispatch_set by (destruct (Shell.ui c); reflexivity);
  simpl;
  rewrite set_mounts by (destruct (Shell.ui c); reflexivity);
  apply app_nil_r.

(** Only a delivery and the map tab can mount a [MapView]. *)
Lemma step_maplog_quiet vm c e :
  may_mount e = false -> Shell.maplog (Shell.step vm c e) = Shell.maplog c.
Proof.
  intros M.
  destruct e as [i o | ms | y | | | lag | v | v | b | | | | z | pt];
    try discriminate M; simpl.
  - reflexivity.
  - unfold App.handleScroll.
    destruct (lt y (of_Z 20)); [ | destruct (lt y (Shell.lastScrollY c))];
      no_mount c.
  - destruct (App.loading (Shell.ui c) || negb (App.backendHealthy (Shell.ui c)))
      eqn:G; [reflexivity | ].
    apply orb_false_iff in G. destruct G as [G _].
    unfold App.handleRefresh.
    rewrite dispatch_spec by apply loadUHIData_keeps_healthy. simpl.
    rewrite refresh_mounts by exact G. apply app_nil_r.
  - destruct (App.loading (Shell.ui c) || negb (App.backendHealthy (Shell.ui c)))
      eqn:G; [reflexivity | ].
    apply orb_false_iff in G. destruct G as [G _].
    unfold App.handleApplyFilters.
    rewrite dispatch_spec by apply loadUHIData_keeps_healthy. simpl.
    rewrite refresh_mounts by exact G. apply app_nil_r.
  - destruct (App.handleExportData _ _ _); reflexivity.
  - destruct (App.loading (Shell.ui c)); [reflexivity | no_mount c].
  - destruct (App.loading (Shell.ui c)); [reflexivity | no_mount c].
  - destruct (_ || _); [reflexivity | no_mount c].
  - destruct (Shell.is_truthy _); [no_mount c | reflexivity].
  - destruct (_ || _); [reflexivity | ].
    rewrite dispatch_set by (destruct (Shell.ui c); reflexivity). simpl.
    rewrite mounts_hidden; [apply app_nil_r | ].
    unfold Shell.shows_map. destruct (Shell.ui c); simpl.
    apply andb_false_r.
  - unfold App.handleZoneFilter. no_mount c.
  - unfold App.handlePointClick. no_mount c.
Qed.

(** What the map tab mounts. *)
Lemma map_tab_maplog vm c :
  Shell.maplog (Shell.step vm c Shell.ClickMapTab)
  = (Shell.maplog c
     ++ if negb (App.loading (Shell.ui c)) && Shell.has_data (Shell.ui c)
           && negb (String.eqb (App.activeView (Shell.ui c)) "map")
        then [MapView.mount_request] else [])%list.
Proof.
  simpl.
  destruct (App.loading (Shell.ui c) || negb (Shell.has_data (Shell.ui c))) eqn:G.
  - apply orb_true_iff in G. destruct G as [G | G].
    + rewrite G. simpl. rewrite app_nil_r. reflexivity.
    + apply negb_true_iff in G. rewrite G, andb_false_r. simpl.
      rewrite app_nil_r. reflexivity.
  - apply orb_false_iff in G. destruct G as [G1 G2]. apply negb_false_iff in G2.
    rewrite dispatch_set by (destruct (Shell.ui c); reflexivity). simpl.
    apply f_equal. unfold mounts, Shell.shows_map, Shell.has_data in *.
    destruct (Shell.ui c); simpl in *. rewrite G1, G2 in *. simpl.
    rewrite andb_true_r. reflexivity.
Qed.

(** Every request of a [MapView] is the one of its mount. *)
Lemma dispatch_maplog_Forall vm h c :
  Forall (fun r => r = MapView.mount_request) (Shell.maplog c) ->
  Forall (fun r => r = MapView.mount_request) (Shell.maplog (Shell.dispatch vm h c)).
Proof.
  intros H. unfold Shell.dispatch.
  destruct (Bool.eqb _ _); rewrite !render_spec, !run_spec; simpl;
    repeat (apply Forall_app; split); try exact H; apply mounts_Forall.
Qed.

Lemma step_maplog_Forall vm c e :
  Forall (fun r => r = MapView.mount_request) (Shell.maplog c) ->
  Forall (fun r => r = MapView.mount_request) (Shell.maplog (Shell.step vm c e)).
Proof.
  intros H.
  destruct (may_mount e) eqn:M;
    [ | rewrite step_maplog_quiet by exact M; exact H].
  destruct e; try discriminate M.
  - simpl. destruct (nth_error _ _) as [[req k] | ]; [ | exact H].
    apply dispatch_maplog_Forall. exact H.
  - rewrite map_tab_maplog. apply Forall_app. split; [exact H | ].
    destruct (_ && _); repeat constructor.
Qed.

Lemma reachable_maplog vm scrollY now evs :
  Forall (fun r => r = MapView.mount_request)
         (Shell.maplog (Shell.steps vm (Shell.mounted vm scrollY now) evs)).
Proof.
  assert (H : forall c,
             Forall (fun r => r = MapView.mount_request) (Shell.maplog c) ->
             Forall (fun r => r = MapView.mount_request)
                    (Shell.maplog (Shell.steps vm c evs))).
  { induction evs as [ | e evs IH]; intros c Hc; simpl; [exact Hc | ].
    apply IH, step_maplog_Forall, Hc. }
  apply H. rewrite mounted_spec. constructor.
Qed.

(** X1: in every reachable state of the shell at most one await of its own
    handlers is pending (the requests of the [MapView] instances it mounts
    are not awaited by the shell; they are logged apart); [loading] is set
    exactly while one is; no error is shown while loading; and while the
    backend is healthy the pending request is the data request for the
    parameters the state holds, which passed validation (the sliders and
    the two buttons are disabled while loading). *)
Theorem single_flight
  (vm : UHIViewModel.t) (scrollY : number) (now : Date.time)
  (evs : list Shell.event) :
  let c := Shell.steps vm (Shell.mounted vm scrollY now) evs in
  (List.length (Shell.inflight c) <= 1)%nat
  /\ (App.loading (Shell.ui c) = true <-> Shell.inflight c <> [])
  /\ (App.loading (Shell.ui c) = true -> App.error (Shell.ui c) = None)
  /\ (forall req k,
        In (req, k) (Shell.inflight c) ->
        App.backendHealthy (Shell.ui c) = true ->
        req = uhi_request vm (App.numPoints (Shell.ui c)) (App.daysBack (Shell.ui c))
        /\ UHIViewModel.validateParameters (App.numPoints (Shell.ui c))
                                           (App.daysBack (Shell.ui c)) = []).
Proof.
  intros c. pose proof (reachable_phase vm scrollY now evs) as P. fold c in P.
  destruct P as [Ei El Eb Elo Eer Enp Edb Eud Eml | Ei El Eb Elo Eud Eml
                 | ps Ei El F Eh Eb Elo | ps n d Ei El F Eh Eb Elo Eer Enp Edb];
    rewrite Ei, ?Elo; simpl.
  - repeat split; auto; try discriminate; try congruence.
  - repeat split; auto; try discriminate; try congruence; try contradiction.
  - repeat split; auto; try discriminate; try congruence; try contradiction.
  - split; [lia | ]. split; [split; [discriminate | reflexivity] | ].
    split; [intros _; exact Eer | ].
    intros req k [E | []] _. injection E as <- _.
    rewrite Enp, Edb. split; [reflexivity | ].
    apply Forall_app in F. destruct F as [_ F]. inversion F; assumption.
Qed.

Lemma single_flight_witness :
  App.error (Shell.ui (Shell.steps sample_vm
                         (Shell.mounted sample_vm (of_Z 0) 1767225600000)
                         [Shell.Deliver 0 sample_healthy])) = None.
Proof.
  destruct (single_flight sample_vm (of_Z 0) 1767225600000
              [Shell.Deliver 0 sample_healthy]) as (_ & _ & H & _).
  exact (H eq_refl).
Defined.

(** X2: the requests the shell issues through its view model are the
    health check, once and first, and then only data requests whose
    parameters passed validation; the first data request asks for 100
    points and 30 days.  Beside them the only requests are those of the
    [MapView] instances the shell mounted, each the GET of
    [http://localhost:5000/api/uhi] without parameters, whatever the base
    URL of the view model and the parameters of the state.  While the
    backend is not healthy no data request was issued and no [MapView] was
    mounted. *)
Theorem request_log_validated
  (vm : UHIViewModel.t) (scrollY : number) (now : Date.time)
  (evs : list Shell.event) :
  let c := Shell.steps vm (Shell.mounted vm scrollY now) evs in
  exists ps,
    Shell.netlog c = health_request vm :: data_requests vm ps
    /\ Forall validated ps
    /\ (ps = [] \/ hd_error ps = Some (of_Z 100, of_Z 30))
    /\ (App.backendHealthy (Shell.ui c) = false -> ps = [] /\ Shell.maplog c = [])
    /\ Forall (fun r => r = mkRequest "http://localhost:5000/api/uhi" [])
              (Shell.maplog c).
Proof.
  intros c. pose proof (reachable_phase vm scrollY now evs) as P. fold c in P.
  pose proof (reachable_maplog vm scrollY now evs) as M. fold c in M.
  destruct P as [Ei El Eb Elo Eer Enp Edb Eud Eml | Ei El Eb Elo Eud Eml
                 | ps Ei El F Eh Eb Elo | ps n d Ei El F Eh Eb Elo Eer Enp Edb].
  - exists []. rewrite El. repeat split; auto.
  - exists []. rewrite El. repeat split; auto.
  - exists ps. repeat split; auto; congruence.
  - exists (ps ++ [(n, d)])%list. repeat split; auto; congruence.
Qed.

Lemma request_log_validated_witness :
  Shell.netlog (Shell.steps sample_vm
                  (Shell.mounted sample_vm (of_Z 0) 1767225600000)
                  [Shell.Deliver 0 sample_down; Shell.ClickRefresh])
  = [health_request sample_vm]
  /\ Shell.maplog (Shell.steps sample_vm
                     (Shell.mounted sample_vm (of_Z 0) 1767225600000)
                     [Shell.Deliver 0 sample_down; Shell.ClickRefresh]) = [].
Proof.
  destruct (request_log_validated sample_vm (of_Z 0) 1767225600000
              [Shell.Deliver 0 sample_down; Shell.ClickRefresh])
    as (ps & E & _ & _ & H & _).
  destruct (H eq_refl) as [Hps Hm].
  split; [rewrite E, Hps; reflexivity | exact Hm].
Defined.

(** X3: the answer to the health check.  A response with a status of
    success makes the backend healthy and at once starts the first load,
    for 100 points and 30 days; any other response, and a failure of the
    request, ends loading with the "not responding" message and issues
    nothing.  No data is stored and no [MapView] is mounted either way. *)
Theorem health_answer
  (vm : UHIViewModel.t) (scrollY : number) (now : Date.time)
  (evs : list Shell.event) (o : fetch_outcome) :
  let c := Shell.steps vm (Shell.mounted vm scrollY now) evs in
  let c' := Shell.step vm c (Shell.Deliver 0 o) in
  App.backendHealthy (Shell.ui c) = false ->
  Shell.inflight c <> [] ->
  App.backendHealthy (Shell.ui c') = healthy o
  /\ App.uhiData (Shell.ui c') = None
  /\ (if healthy o
      then Shell.inflight c' = [(uhi_request vm (of_Z 100) (of_Z 30), pending_load vm)]
           /\ Shell.netlog c' = [health_request vm; uhi_request vm (of_Z 100) (of_Z 30)]
           /\ App.loading (Shell.ui c') = true
           /\ App.error (Shell.ui c') = None
      else Shell.inflight c' = []
           /\ Shell.netlog c' = [health_request vm]
           /\ Failed banner (Shell.ui c'))
  /\ Shell.maplog c' = [].
Proof.
  intros c c' Hb Hi. subst c'.
  pose proof (reachable_phase vm scrollY now evs) as P. fold c in P.
  destruct P as [Ei El Eb Elo Eer Enp Edb Eud Eml | Ei El Eb Elo Eud Eml
                 | ps Ei El F Eh Eb Elo | ps n d Ei El F Eh Eb Elo Eer Enp Edb];
    try congruence.
  rewrite (health_answer_step vm c o Ei Eb Enp Edb Eud), El.
  destruct (healthy o); simpl; destruct (Shell.ui c); simpl in *;
    repeat split; auto.
Qed.

Lemma health_answer_witness :
  Shell.netlog (Shell.step sample_vm
                  (Shell.steps sample_vm
                     (Shell.mounted sample_vm (of_Z 0) 1767225600000) [])
                  (Shell.Deliver 0 sample_healthy))
  = [health_request sample_vm; uhi_request sample_vm (of_Z 100) (of_Z 30)].
Proof.
  destruct (health_answer sample_vm (of_Z 0) 1767225600000 [] sample_healthy
              eq_refl ltac:(discriminate)) as (_ & _ & (_ & H & _) & _).
  exact H.
Defined.

(** X4: once the health check has failed nothing brings the shell back:
    whatever events follow, the backend stays unhealthy, nothing is
    pending, the health check is the only request ever issued (no
    [MapView] is mounted), [loading] stays false and there is no data. *)
Theorem unhealthy_is_final
  (vm : UHIViewModel.t) (scrollY : number) (now : Date.time)
  (evs more : list Shell.event) :
  let c := Shell.steps vm (Shell.mounted vm scrollY now) evs in
  let c' := Shell.steps vm c more in
  App.backendHealthy (Shell.ui c) = false ->
  Shell.inflight c = [] ->
  App.backendHealthy (Shell.ui c') = false
  /\ Shell.inflight c' = []
  /\ Shell.netlog c' = [health_request vm]
  /\ App.loading (Shell.ui c') = false
  /\ App.uhiData (Shell.ui c') = None
  /\ Shell.maplog c' = [].
Proof.
  intros c c' Hb Hi.
  assert (H : forall c0, App.backendHealthy (Shell.ui c0) = false ->
                         Shell.inflight c0 = [] ->
                         Shell.inflight (Shell.steps vm c0 more) = []
                         /\ App.backendHealthy (Shell.ui (Shell.steps vm c0 more)) = false).
  { induction more as [ | e more IH]; intros c0 Hb0 Hi0; simpl; [auto | ].
    destruct (unhealthy_step vm c0 e Hi0 Hb0) as [Hi' Hb']. apply IH; assumption. }
  destruct (H c Hb Hi) as [Hi' Hb']. fold c' in Hi', Hb'.
  assert (P : phase vm c') by (apply steps_phase, reachable_phase).
  destruct P as [Ei El Eb Elo Eer Enp Edb Eud Eml | Ei El Eb Elo Eud Eml
                 | ps Ei El F Eh Eb Elo | ps n d Ei El F Eh Eb Elo Eer Enp Edb];
    try congruence; repeat split; auto.
Qed.

Lemma unhealthy_is_final_witness :
  Shell.netlog
    (Shell.steps sample_vm
       (Shell.steps sample_vm (Shell.mounted sample_vm (of_Z 0) 1767225600000)
                    [Shell.Deliver 0 sample_down])
       [Shell.DismissError; Shell.ClickRefresh; Shell.SlideNumPoints (of_Z 50);
        Shell.ClickApply])
  = [health_request sample_vm].
Proof.
  destruct (unhealthy_is_final sample_vm (of_Z 0) 1767225600000
              [Shell.Deliver 0 sample_down]
              [Shell.DismissError; Shell.ClickRefresh;
               Shell.SlideNumPoints (of_Z 50); Shell.ClickApply]
              eq_refl eq_refl) as (_ & _ & H & _).
  exact H.
Defined.

(** X5: the answer to the pending data request ends the load cycle: no
    await of the shell is pending, the view model issued no further request,
    [loading] is false, and the parameters in the state are still those of
    the request that was answered.  A payload with [success] is stored as it
    is, its [data] and [statistics] present or not, and no error is shown;
    anything else shows its message and keeps the data.  The render that
    follows replaces the spinner: when there is data (new, or kept after a
    failure) and the map tab is open, a [MapView] is mounted and issues its
    own GET; otherwise none is. *)
Theorem load_answer
  (vm : UHIViewModel.t) (scrollY : number) (now : Date.time)
  (evs : list Shell.event) (o : fetch_outcome) :
  let c := Shell.steps vm (Shell.mounted vm scrollY now) evs in
  let c' := Shell.step vm c (Shell.Deliver 0 o) in
  App.backendHealthy (Shell.ui c) = true ->
  App.loading (Shell.ui c) = true ->
  Shell.inflight c' = []
  /\ Shell.netlog c' = Shell.netlog c
  /\ App.loading (Shell.ui c') = false
  /\ App.numPoints (Shell.ui c') = App.numPoints (Shell.ui c)
  /\ App.daysBack (Shell.ui c') = App.daysBack (Shell.ui c)
  /\ last (Shell.netlog c) (health_request vm)
     = uhi_request vm (App.numPoints (Shell.ui c')) (App.daysBack (Shell.ui c'))
  /\ match loaded_payload o with
     | Some pl =>
         Loaded (Http.data pl) (Http.statistics pl) (Shell.ui c')
         /\ App.error (Shell.ui c') = None
     | None =>
         Failed (failure_message o) (Shell.ui c')
         /\ App.uhiData (Shell.ui c') = App.uhiData (Shell.ui c)
         /\ App.statistics (Shell.ui c') = App.statistics (Shell.ui c)
     end
  /\ App.activeView (Shell.ui c') = App.activeView (Shell.ui c)
  /\ Shell.maplog c'
     = (Shell.maplog c
        ++ if Shell.has_data (Shell.ui c')
              && String.eqb (App.activeView (Shell.ui c')) "map"
           then [MapView.mount_request] else [])%list.
Proof.
  intros c c' Hb Hl. subst c'.
  pose proof (reachable_phase vm scrollY now evs) as P. fold c in P.
  destruct P as [Ei El Eb Elo Eer Enp Edb Eud Eml | Ei El Eb Elo Eud Eml
                 | ps Ei El F Eh Eb Elo | ps n d Ei El F Eh Eb Elo Eer Enp Edb];
    try congruence.
  rewrite (load_answer_step vm c _ o Ei).
  cbn [Shell.ui Shell.inflight Shell.netlog Shell.maplog].
  rewrite (mounts_after_loading _ _ Hl)
    by (rewrite pending_load_steps; destruct (loaded_payload o);
        destruct (Shell.ui c); reflexivity).
  rewrite pending_load_steps, El.
  assert (L : last (health_request vm :: data_requests vm (ps ++ [(n, d)]))
                   (health_request vm) = uhi_request vm n d).
  { rewrite <- data_requests_snoc.
    change (health_request vm :: data_requests vm ps ++ [uhi_request vm n d])%list
      with ((health_request vm :: data_requests vm ps) ++ [uhi_request vm n d])%list.
    apply last_last. }
  rewrite L.
  destruct (loaded_payload o); destruct (Shell.ui c); simpl in *; subst;
    repeat split.
Qed.

Lemma load_answer_witness :
  Loaded (Some sample_points) (Some sample_statistics)
    (Shell.ui (Shell.step sample_vm
                 (Shell.steps sample_vm
                    (Shell.mounted sample_vm (of_Z 0) 1767225600000)
                    [Shell.Deliver 0 sample_healthy])
                 (Shell.Deliver 0 (Resolved (mkResponse 200 (inr sample_payload))))))
  /\ Shell.maplog
       (Shell.step sample_vm
          (Shell.steps sample_vm
             (Shell.mounted sample_vm (of_Z 0) 1767225600000)
             [Shell.Deliver 0 sample_healthy])
          (Shell.Deliver 0 (Resolved (mkResponse 200 (inr sample_payload)))))
     = [MapView.mount_request].
Proof.
  destruct (load_answer sample_vm (of_Z 0) 1767225600000
              [Shell.Deliver 0 sample_healthy]
              (Resolved (mkResponse 200 (inr sample_payload))) eq_refl eq_refl)
    as (_ & _ & _ & _ & _ & _ & (H & _) & _ & M).
  split; [exact H | ]. rewrite M. reflexivity.
Defined.

(** X6: which events reach the network.  Only a delivery, Refresh or Apply
    can make the view model issue a request: every other event (sliders,
    tabs, heat map, zone and point clicks, scroll, export, dismissing the
    error, time) leaves its log, the pending awaits, the data, the
    statistics and [loading] as they are, in every state.  Only a delivery
    or the map tab can mount a [MapView], whose mount issues a GET of its
    own: every other event, Refresh and Apply included, leaves the log of
    those requests as it is, and the map tab adds one exactly when the shell
    is not loading, has data and shows the analytics tab.  Refresh and Apply
    do nothing while loading or while the backend is not healthy, and the
    sliders do nothing while loading. *)
Theorem only_load_triggers_fetch
  (vm : UHIViewModel.t) (c : Shell.config) (e : Shell.event) :
  (may_fetch e = false ->
   Shell.netlog (Shell.step vm c e) = Shell.netlog c
   /\ Shell.inflight (Shell.step vm c e) = Shell.inflight c
   /\ App.uhiData (Shell.ui (Shell.step vm c e)) = App.uhiData (Shell.ui c)
   /\ App.statistics (Shell.ui (Shell.step vm c e)) = App.statistics (Shell.ui c)
   /\ App.loading (Shell.ui (Shell.step vm c e)) = App.loading (Shell.ui c))
  /\ (may_mount e = false ->
      Shell.maplog (Shell.step vm c e) = Shell.maplog c)
  /\ (e = Shell.ClickMapTab ->
      Shell.maplog (Shell.step vm c e)
      = (Shell.maplog c
         ++ if negb (App.loading (Shell.ui c)) && Shell.has_data (Shell.ui c)
               && negb (String.eqb (App.activeView (Shell.ui c)) "map")
            then [MapView.mount_request] else [])%list)
  /\ (e = Shell.ClickRefresh \/ e = Shell.ClickApply ->
      App.loading (Shell.ui c) = true \/ App.backendHealthy (Shell.ui c) = false ->
      Shell.step vm c e = c)
  /\ (forall v,
        e = Shell.SlideNumPoints v \/ e = Shell.SlideDaysBack v ->
        App.loading (Shell.ui c) = true ->
        Shell.step vm c e = c).
Proof.
  split; [ | split; [ | split; [ | split]]].
  - intros M.
    destruct e as [i o | ms | y | | | lag | v | v | b | | | | z | pt];
      try discriminate M; simpl.
    + repeat split.
    + unfold App.handleScroll.
      destruct (lt y (of_Z 20)); [ | destruct (lt y (Shell.lastScrollY c))];
        rewrite dispatch_set by (destruct (Shell.ui c); reflexivity);
        repeat split; destruct (Shell.ui c); reflexivity.
    + destruct (App.handleExportData _ _ _); repeat split.
    + destruct (App.loading (Shell.ui c)) eqn:L; [repeat split; exact L | ].
      rewrite dispatch_set by (destruct (Shell.ui c); reflexivity).
      repeat split; destruct (Shell.ui c); simpl in *; auto.
    + destruct (App.loading (Shell.ui c)) eqn:L; [repeat split; exact L | ].
      rewrite dispatch_set by (destruct (Shell.ui c); reflexivity).
      repeat split; destruct (Shell.ui c); simpl in *; auto.
    + destruct (_ || _); [repeat split | ].
      rewrite dispatch_set by (destruct (Shell.ui c); reflexivity).
      repeat split; destruct (Shell.ui c); reflexivity.
    + destruct (Shell.is_truthy _); [ | repeat split].
      rewrite dispatch_set by (destruct (Shell.ui c); reflexivity).
      repeat split; destruct (Shell.ui c); reflexivity.
    + destruct (_ || _); [repeat split | ].
      rewrite dispatch_set by (destruct (Shell.ui c); reflexivity).
      repeat split; destruct (Shell.ui c); reflexivity.
    + destruct (_ || _); [repeat split | ].
      rewrite dispatch_set by (destruct (Shell.ui c); reflexivity).
      repeat split; destruct (Shell.ui c); reflexivity.
    + unfold App.handleZoneFilter.
      rewrite dispatch_set by (destruct (Shell.ui c); reflexivity).
      repeat split; destruct (Shell.ui c); reflexivity.
    + unfold App.handlePointClick.
      rewrite dispatch_set by (destruct (Shell.ui c); reflexivity).
      repeat split; destruct (Shell.ui c); reflexivity.
  - apply step_maplog_quiet.
  - intros ->. apply map_tab_maplog.
  - intros [-> | ->] [H | H]; simpl; rewrite H; simpl;
      rewrite ?orb_true_r; reflexivity.
  - intros v [-> | ->] H; simpl; rewrite H; reflexivity.
Qed.

Lemma only_load_triggers_fetch_witness :
  Shell.step sample_vm (Shell.steps sample_vm sample_start sample_session)
             Shell.ClickRefresh
  = Shell.steps sample_vm sample_start sample_session.
Proof.
  destruct (only_load_triggers_fetch sample_vm
              (Shell.steps sample_vm sample_start sample_session)
              Shell.ClickRefresh) as (_ & _ & _ & H & _).
  exact (H (or_introl eq_refl) (or_introl eq_refl)).
Defined.

(** X7: [uhiData] is stored unchecked.  In a reachable state that holds
    data, the only event that clears it is the arrival, for a data request,
    of a response with a status of success whose payload has [success] true
    and no [data] (missing or [null]); and such a response does clear it,
    after which the export action returns early. *)
Theorem data_cleared_by_dataless_load
  (vm : UHIViewModel.t) (scrollY : number) (now : Date.time)
  (evs : list Shell.event) (e : Shell.event) :
  let c := Shell.steps vm (Shell.mounted vm scrollY now) evs in
  let c' := Shell.step vm c e in
  (App.uhiData (Shell.ui c) <> None ->
   App.uhiData (Shell.ui c') = None ->
   exists i r pl,
     e = Shell.Deliver i (Resolved r)
     /\ ok r = true /\ json_body r = inr pl /\ success pl = true
     /\ Http.data pl = None)
  /\ (forall pl,
        loads vm c e = Some pl ->
        Http.data pl = None ->
        App.uhiData (Shell.ui c') = None
        /\ forall now1 now2, App.handleExportData now1 now2 (Shell.ui c') = None).
Proof.
  intros c c'.
  destruct (reachable_invariants vm scrollY now evs) as [Hp Hs].
  fold c in Hp, Hs.
  destruct (step_preserves vm c e _ Hp Hs) as [_ Hs']. fold c' in Hs'.
  split.
  - intros Hd Hn.
    destruct (loads vm c e) as [pl | ] eqn:L.
    + destruct (loads_inv _ _ _ _ L) as (i & r & -> & H1 & H2 & H3).
      destruct Hs' as [E _]. exists i, r, pl. repeat split; auto. congruence.
    + exfalso. apply Hd. unfold shows_last_load in Hs, Hs'.
      destruct (last_load vm _ evs None) as [[t pl] | ];
        destruct Hs as [E _], Hs' as [E' _]; congruence.
  - intros pl L Hn. rewrite L in Hs'. destruct Hs' as [E _].
    assert (U : App.uhiData (Shell.ui c') = None) by congruence.
    split; [exact U | ].
    intros now1 now2. unfold App.handleExportData. rewrite U. reflexivity.
Qed.

Lemma data_cleared_by_dataless_load_witness :
  App.uhiData (Shell.ui (Shell.steps sample_vm sample_start sample_session))
  = Some sample_points
  /\ App.uhiData
       (Shell.ui (Shell.step sample_vm
                    (Shell.steps sample_vm sample_start sample_session)
                    (Shell.Deliver 0 (Resolved (mkResponse 200 (inr dataless_payload))))))
     = None.
Proof.
  split; [reflexivity | ].
  destruct (data_cleared_by_dataless_load sample_vm (of_Z 0) 1767225600000
              sample_session
              (Shell.Deliver 0 (Resolved (mkResponse 200 (inr dataless_payload)))))
    as [_ H].
  exact (proj1 (H dataless_payload eq_refl eq_refl)).
Defined.

(** *** Before the first successful load *)

Lemma commit_keeps_view (us : list App.update) (s : App.state) :
  forallb (fun u => negb (sets_view u)) us = true ->
  App.showHeatmap (commit us s) = App.showHeatmap s
  /\ App.activeView (commit us s) = App.activeView s.
Proof.
  revert s. induction us as [ | u us IH]; intros s H; simpl in *.
  - split; reflexivity.
  - apply andb_true_iff in H. destruct H as [Hu H].
    destruct (IH (App.apply u s) H) as [E1 E2]. unfold commit in *.
    rewrite E1, E2. destruct s, u; simpl in *; try discriminate; split; reflexivity.
Qed.

Lemma loadUHIData_updates_keep_view vm n d :
  forallb (fun u => negb (sets_view u)) (updates (App.loadUHIData vm n d)) = true.
Proof.
  destruct (UHIViewModel.validateParameters n d) as [ | e es] eqn:V.
  - rewrite (loadUHIData_valid vm _ _ V). reflexivity.
  - rewrite (loadUHIData_invalid vm _ _ e es V). reflexivity.
Qed.

Lemma effect_updates_keep_view vm s :
  forallb (fun u => negb (sets_view u))
          (updates (App.effect_backendHealthy vm s)) = true.
Proof.
  unfold App.effect_backendHealthy. destruct (App.backendHealthy s); [ | reflexivity].
  apply loadUHIData_updates_keep_view.
Qed.

(** A handler that stores no data and touches neither the heat map nor the
    tab leaves a pristine shell pristine, the effect that may follow it
    included. *)
Lemma dispatch_pristine vm h c :
  forallb (fun u => negb (stores_data u)) (updates h) = true ->
  forallb (fun u => negb (sets_view u)) (updates h) = true ->
  pristine c -> pristine (Shell.dispatch vm h c).
Proof.
  intros Hd Hv (P1 & P2 & P3 & P4 & P5 & P6).
  destruct (settle_keeps_data (updates h) (Shell.ui c) Hd) as [D1 D2].
  destruct (commit_keeps_view (updates h) (Shell.ui c) Hv) as [V1 V2].
  unfold Shell.dispatch.
  destruct (Bool.eqb _ _); rewrite !render_spec, !run_spec; unfold pristine; simpl.
  - rewrite mounts_no_data by (unfold settle; congruence).
    unfold settle. rewrite D1, D2, V1, V2, app_nil_r. auto 6.
  - destruct (settle_keeps_data _ (settle h (Shell.ui c))
                (effect_updates_keep_data vm (settle h (Shell.ui c)))) as [F1 F2].
    destruct (commit_keeps_view _ (settle h (Shell.ui c))
                (effect_updates_keep_view vm (settle h (Shell.ui c)))) as [W1 W2].
    unfold settle in *.
    rewrite !mounts_no_data by congruence.
    rewrite F1, F2, W1, W2, D1, D2, V1, V2, !app_nil_r. auto 6.
Qed.

Lemma pending_updates_keep_view vm o :
  forallb (fun u => negb (sets_view u)) (updates (pending_health vm o)) = true
  /\ forallb (fun u => negb (sets_view u)) (updates (pending_load vm o)) = true.
Proof.
  rewrite pending_health_cases, pending_load_steps.
  destruct (healthy o), (loaded_payload o); split; reflexivity.
Qed.

Lemma pristine_step vm c e :
  pending_known vm c ->
  loads vm c e = None ->
  pristine c -> pristine (Shell.step vm c e).
Proof.
  intros Hp L P.
  assert (Hn : Shell.has_data (Shell.ui c) = false).
  { unfold Shell.has_data. destruct P as [-> _]. reflexivity. }
  destruct e as [i o | ms | y | | | lag | v | v | b | | | | z | pt]; simpl in *.
  - destruct (nth_error (Shell.inflight c) i) as [[req k] | ] eqn:Hi; [ | exact P].
    destruct (nth_error_Forall _ _ _ _ Hp Hi) as [E | (n & d & E)];
      injection E as -> ->.
    + apply dispatch_pristine; [ | apply pending_updates_keep_view | exact P].
      rewrite pending_health_cases. destruct (healthy o); reflexivity.
    + rewrite uhi_is_data in L.
      apply dispatch_pristine; [ | apply pending_updates_keep_view | exact P].
      rewrite pending_load_steps, L. reflexivity.
  - exact P.
  - unfold App.handleScroll.
    destruct (lt y (of_Z 20)); [ | destruct (lt y (Shell.lastScrollY c))].
    + exact (dispatch_pristine vm (set (App.setShowHeader true)) c
               eq_refl eq_refl P).
    + exact (dispatch_pristine vm (set (App.setShowHeader true)) c
               eq_refl eq_refl P).
    + exact (dispatch_pristine vm (set (App.setShowHeader false)) c
               eq_refl eq_refl P).
  - destruct (_ || _); [exact P | ].
    apply dispatch_pristine;
      [apply loadUHIData_updates_keep_data | apply loadUHIData_updates_keep_view | exact P].
  - destruct (_ || _); [exact P | ].
    apply dispatch_pristine;
      [apply loadUHIData_updates_keep_data | apply loadUHIData_updates_keep_view | exact P].
  - unfold App.handleExportData. destruct P as [U P]. rewrite U.
    split; assumption.
  - destruct (App.loading _); [exact P | ].
    apply dispatch_pristine; [reflexivity | reflexivity | exact P].
  - destruct (App.loading _); [exact P | ].
    apply dispatch_pristine; [reflexivity | reflexivity | exact P].
  - rewrite Hn, orb_true_r. exact P.
  - destruct (Shell.is_truthy _); [ | exact P].
    apply dispatch_pristine; [reflexivity | reflexivity | exact P].
  - rewrite Hn, orb_true_r. exact P.
  - rewrite Hn, orb_true_r. exact P.
  - apply dispatch_pristine; [reflexivity | reflexivity | exact P].
  - apply dispatch_pristine; [reflexivity | reflexivity | exact P].
Qed.

Lemma last_load_some vm evs : forall c x, last_load vm c evs (Some x) <> None.
Proof.
  induction evs as [ | e evs IH]; intros c x; simpl; [discriminate | ].
  destruct (loads vm c e); apply IH.
Qed.

(** X8: until a load has succeeded the shell is as it was mounted in every
    part that needs data: [uhiData] and [statistics] are [null], the heat
    map is off and the map tab is open (the checkbox is disabled and the
    tabs are not rendered without data), no file was offered (the export
    returns early) and no [MapView] was mounted, so it issued no request. *)
Theorem pristine_until_first_load
  (vm : UHIViewModel.t) (scrollY : number) (now : Date.time)
  (evs : list Shell.event) :
  last_load vm (Shell.mounted vm scrollY now) evs None = None ->
  pristine (Shell.steps vm (Shell.mounted vm scrollY now) evs).
Proof.
  destruct (mounted_invariants vm scrollY now) as [Hp _].
  assert (P : pristine (Shell.mounted vm scrollY now)).
  { rewrite mounted_spec. repeat split. }
  revert Hp P. generalize (Shell.mounted vm scrollY now).
  induction evs as [ | e evs IH]; intros c Hp P L; simpl in *; [exact P | ].
  destruct (loads vm c e) as [pl | ] eqn:E.
  - exfalso. exact (last_load_some _ _ _ _ L).
  - apply IH; [ | apply pristine_step; assumption | exact L].
    destruct (step_preserves vm c e None Hp) as [Hp' _]; [ | exact Hp'].
    destruct P as (P1 & P2 & _). split; assumption.
Qed.

Lemma pristine_until_first_load_witness :
  pristine
    (Shell.steps sample_vm (Shell.mounted sample_vm (of_Z 0) 1767225600000)
       [Shell.ClickExport 0; Shell.ToggleHeatmap true;
        Shell.Deliver 0 sample_healthy; Shell.ClickAnalyticsTab;
        Shell.Deliver 0 (Resolved (mkResponse 500 (inl (mkExn "SyntaxError" ""))));
        Shell.ClickExport 5; Shell.ToggleHeatmap true]).
Proof.
  apply (pristine_until_first_load sample_vm (of_Z 0) 1767225600000
           [Shell.ClickExport 0; Shell.ToggleHeatmap true;
            Shell.Deliver 0 sample_healthy; Shell.ClickAnalyticsTab;
            Shell.Deliver 0 (Resolved (mkResponse 500 (inl (mkExn "SyntaxError" ""))));
            Shell.ClickExport 5; Shell.ToggleHeatmap true]).
  reflexivity.
Defined.

(** X9: the name of the exported file and its [exportedAt] come from two
    readings of the clock.  The name carries the UTC date of the second
    reading and [exportedAt] denotes the first; the date in the name is the
    date of [exportedAt] when both readings fall on one UTC day, and it is
    the day after when midnight passes between them. *)
Theorem export_reads_clock_twice
  (s : App.state) (d : list SamplePoint) (now1 now2 : Date.time) :
  App.uhiData s = Some d ->
  valid_time now1 ->
  valid_time now2 ->
  exists file text,
    App.handleExportData now1 now2 s = Some file
    /\ App.Artifact.filename file
       = ("uhi-analysis-" ++ iso_date now2 ++ ".json")%string
    /\ field "exportedAt" (App.Artifact.content file) = Some (JStr text)
    /\ parse_iso text = Some now1
    /\ Date.before "T" text = iso_date now1
    /\ (now1 / Date.msPerDay = now2 / Date.msPerDay ->
        App.Artifact.filename file
        = ("uhi-analysis-" ++ Date.before "T" text ++ ".json")%string).
Proof.
  intros U V1 V2. unfold App.handleExportData. rewrite U.
  destruct (export_fields (points_value d) (App.statistics s)
              (Date.toISOString now1)) as (_ & _ & F3).
  eexists. exists (Date.toISOString now1).
  split; [reflexivity | ].
  cbn [App.Artifact.filename App.Artifact.content].
  rewrite !before_T_toISOString.
  split; [reflexivity | ].
  split; [exact F3 | ].
  split; [apply parse_toISOString; exact V1 | ].
  split; [reflexivity | ].
  intros E. unfold iso_date. rewrite E. reflexivity.
Qed.

Lemma export_reads_clock_twice_witness :
  exists file,
    App.handleExportData 1767311999999 1767312000000
      (Shell.ui (Shell.steps sample_vm sample_start sample_session)) = Some file
    /\ App.Artifact.filename file = "uhi-analysis-2026-01-02.json"%string
    /\ field "exportedAt" (App.Artifact.content file)
       = Some (JStr "2026-01-01T23:59:59.999Z").
Proof.
  destruct (export_reads_clock_twice
              (Shell.ui (Shell.steps sample_vm sample_start sample_session))
              sample_points 1767311999999 1767312000000 eq_refl)
    as (file & text & E & Ename & _).
  - vm_compute. split; discriminate.
  - vm_compute. split; discriminate.
  - exists file. split; [exact E | ].
    split; [rewrite Ename; reflexivity | ].
    vm_compute in E. injection E as <-. reflexivity.
Defined.

Lemma lt_irrefl x : lt x x = false.
Proof.
  destruct x as [ | | | q]; try reflexivity.
  simpl. unfold Qcompare. rewrite Z.compare_refl. reflexivity.
Qed.

(** X10: after a scroll event the header is shown exactly when the
    position is below 20 or below the position of the event before, and that
    position is remembered; so after two scroll events the header depends on
    their two positions only, a second event at the same position leaves
    the header shown only near the top, and a position that is not a number
    hides it. *)
Theorem scroll_header
  (vm : UHIViewModel.t) (c : Shell.config) (y1 y2 : number) :
  let c1 := Shell.step vm c (Shell.Scroll y1) in
  let c2 := Shell.step vm c1 (Shell.Scroll y2) in
  App.showHeader (Shell.ui c1) = lt y1 (of_Z 20) || lt y1 (Shell.lastScrollY c)
  /\ Shell.lastScrollY c1 = y1
  /\ App.showHeader (Shell.ui c2) = lt y2 (of_Z 20) || lt y2 y1
  /\ App.showHeader (Shell.ui (Shell.step vm c1 (Shell.Scroll y1)))
     = lt y1 (of_Z 20)
  /\ (is_NaN y1 = true -> App.showHeader (Shell.ui c1) = false).
Proof.
  intros c1 c2.
  assert (S : forall c0 y,
             App.showHeader (Shell.ui (Shell.step vm c0 (Shell.Scroll y)))
             = lt y (of_Z 20) || lt y (Shell.lastScrollY c0)
             /\ Shell.lastScrollY (Shell.step vm c0 (Shell.Scroll y)) = y).
  { intros c0 y. simpl. unfold App.handleScroll.
    destruct (lt y (of_Z 20)); [ | destruct (lt y (Shell.lastScrollY c0))];
      rewrite dispatch_set by (destruct (Shell.ui c0); reflexivity);
      simpl; split; try reflexivity; destruct (Shell.ui c0); reflexivity. }
  destruct (S c y1) as [A1 A2]. fold c1 in A1, A2.
  destruct (S c1 y2) as [B1 _]. fold c2 in B1. rewrite A2 in B1.
  destruct (S c1 y1) as [C1 _]. rewrite A2, lt_irrefl, orb_false_r in C1.
  repeat split; auto.
  intros N. rewrite A1. destruct y1; try discriminate N. reflexivity.
Qed.

Lemma scroll_header_witness :
  App.showHeader (Shell.ui (Shell.step sample_vm sample_start (Shell.Scroll NaN)))
  = false.
Proof.
  destruct (scroll_header sample_vm sample_start NaN (of_Z 0))
    as (_ & _ & _ & _ & H).
  exact (H eq_refl).
Defined.

(** X11: every marker is red, orange or green: red exactly for zone 2,
    orange exactly for zone 1 and green for every other zone; in particular
    a zone that is not a whole number (a fraction, an infinity, [NaN]) is
    drawn green. *)
Theorem marker_colour_total (props : MapView.props) (points : list SamplePoint) :
  Forall2
    (fun m d =>
       (MapView.background m = "red" /\ strict_eq (zone d) (of_Z 2) = true)
       \/ (MapView.background m = "orange" /\ strict_eq (zone d) (of_Z 1) = true)
       \/ (MapView.background m = "green"
           /\ strict_eq (zone d) (of_Z 2) = false
           /\ strict_eq (zone d) (of_Z 1) = false))
    (MapView.render props points) points
  /\ (forall i d,
        nth_error points i = Some d ->
        is_NaN (zone d) = true \/ is_integer (zone d) = false ->
        option_map MapView.background (nth_error (MapView.render props points) i)
        = Some "green").
Proof.
  unfold MapView.render. split.
  - generalize 0%nat. induction points as [ | d points IH]; intros i; simpl;
      constructor; [ | apply IH].
    unfold MapView.marker_of; simpl.
    destruct (strict_eq (zone d) (of_Z 2)) eqn:E2; [left; auto | ].
    destruct (strict_eq (zone d) (of_Z 1)) eqn:E1; [right; left; auto | ].
    right; right; auto.
  - intros i d Hn Hz. rewrite (map_from_nth points 0 i d Hn). simpl.
    assert (E : forall k, strict_eq (zone d) (of_Z k) = false).
    { intros k. destruct Hz as [Hz | Hz]; destruct (zone d) as [ | | | q];
        try discriminate Hz; try reflexivity.
      simpl in *. destruct (Qeq_bool q (inject_Z k)) eqn:Q; [ | reflexivity].
      apply Qeq_bool_iff in Q.
      assert (F : Qeq_bool q (inject_Z (Qfloor q)) = true).
      { apply Qeq_bool_iff. rewrite Q at 2. rewrite Qfloor_Z. exact Q. }
      congruence. }
    rewrite !E. reflexivity.
Qed.

Lemma marker_colour_total_witness :
  option_map MapView.background
    (nth_error (MapView.render (MapView.mkProps None App.AllZones false)
                  [mkPoint (of_Z 20) (of_Z 85) (Fin (5 # 2)) "Plant street trees"]) 0)
  = Some "green".
Proof.
  destruct (marker_colour_total (MapView.mkProps None App.AllZones false)
              [mkPoint (of_Z 20) (of_Z 85) (Fin (5 # 2)) "Plant street trees"])
    as [_ H].
  exact (H 0%nat _ eq_refl (or_intror eq_refl)).
Defined.

Lemma map_from_keys points : forall i,
  map MapView.key (MapView.map_from i points) = seq i (List.length points).
Proof.
  induction points as [ | d points IH]; intros i; simpl; [reflexivity | ].
  rewrite IH. reflexivity.
Qed.

Lemma map_from_app a : forall i b,
  MapView.map_from i (a ++ b)
  = (MapView.map_from i a ++ MapView.map_from (i + List.length a) b)%list.
Proof.
  induction a as [ | d a IH]; intros i b; simpl.
  - rewrite Nat.add_0_r. reflexivity.
  - rewrite IH.
    replace (i + S (List.length a))%nat with (S i + List.length a)%nat by lia.
    reflexivity.
Qed.

(** X12: the keys of the markers are the indices 0, 1, ... of the points,
    so no two markers share a key; the markers of a list followed by another
    are the markers of the first followed by those of the second with keys
    continuing, so appending points changes no earlier marker. *)
Theorem marker_keys (props : MapView.props) (a b : list SamplePoint) :
  map MapView.key (MapView.render props (a ++ b)) = seq 0 (List.length (a ++ b))
  /\ NoDup (map MapView.key (MapView.render props (a ++ b)))
  /\ MapView.render props (a ++ b)
     = (MapView.render props a ++ MapView.map_from (List.length a) b)%list
  /\ firstn (List.length a) (MapView.render props (a ++ b)) = MapView.render props a.
Proof.
  unfold MapView.render.
  split; [apply map_from_keys | ].
  split; [rewrite map_from_keys; apply seq_NoDup | ].
  split; [apply (map_from_app a 0 b) | ].
  rewrite (map_from_app a 0 b).
  rewrite <- (map_from_length a 0) at 1.
  rewrite firstn_app, firstn_all, Nat.sub_diag, firstn_O, app_nil_r. reflexivity.
Qed.

(** X13: with the backend healthy and nothing loading, Refresh and Apply
    are the same action.  With parameters that pass validation it issues one
    data request for them and enters Loading with the error cleared; with
    parameters that fail validation it issues nothing and shows the joined
    messages.  Data, statistics and parameters are untouched, and no
    [MapView] is mounted, either way. *)
Theorem refresh_step
  (vm : UHIViewModel.t) (scrollY : number) (now : Date.time)
  (evs : list Shell.event) :
  let c := Shell.steps vm (Shell.mounted vm scrollY now) evs in
  let c' := Shell.step vm c Shell.ClickRefresh in
  let n := App.numPoints (Shell.ui c) in
  let d := App.daysBack (Shell.ui c) in
  App.loading (Shell.ui c) = false ->
  App.backendHealthy (Shell.ui c) = true ->
  Shell.step vm c Shell.ClickApply = c'
  /\ App.uhiData (Shell.ui c') = App.uhiData (Shell.ui c)
  /\ App.statistics (Shell.ui c') = App.statistics (Shell.ui c)
  /\ App.numPoints (Shell.ui c') = n
  /\ App.daysBack (Shell.ui c') = d
  /\ Shell.maplog c' = Shell.maplog c
  /\ match UHIViewModel.validateParameters n d with
     | [] =>
         Shell.inflight c' = [(uhi_request vm n d, pending_load vm)]
         /\ Shell.netlog c' = (Shell.netlog c ++ [uhi_request vm n d])%list
         /\ App.loading (Shell.ui c') = true
         /\ App.error (Shell.ui c') = None
     | (_ :: _) as errors =>
         Shell.inflight c' = []
         /\ Shell.netlog c' = Shell.netlog c
         /\ Failed (join ". " errors) (Shell.ui c')
     end.
Proof.
  intros c c' n d Hl Hb. subst c' n d.
  pose proof (reachable_phase vm scrollY now evs) as P. fold c in P.
  pose proof (phase_loading_false vm c P Hl) as Hi.
  split; [reflexivity | ].
  simpl. rewrite Hl, Hb. simpl. unfold App.handleRefresh.
  rewrite dispatch_spec by apply loadUHIData_keeps_healthy.
  rewrite refresh_mounts by exact Hl. rewrite Hi, app_nil_r.
  destruct (UHIViewModel.validateParameters (App.numPoints (Shell.ui c))
                                            (App.daysBack (Shell.ui c)))
    as [ | e es] eqn:V.
  - rewrite (loadUHIData_valid vm _ _ V). simpl.
    destruct (Shell.ui c); repeat split.
  - rewrite (loadUHIData_invalid vm _ _ e es V). simpl. rewrite app_nil_r.
    destruct (Shell.ui c); repeat split.
Qed.

Lemma refresh_step_witness :
  Failed "Number of points must be between 10 and 500"
    (Shell.ui (Shell.step sample_vm
                 (Shell.steps sample_vm
                    (Shell.mounted sample_vm (of_Z 0) 1767225600000)
                    [Shell.Deliver 0 sample_healthy;
                     Shell.Deliver 0 (Resolved (mkResponse 200 (inr sample_payload)));
                     Shell.SlideNumPoints (of_Z 5)])
                 Shell.ClickRefresh)).
Proof.
  destruct (refresh_step sample_vm (of_Z 0) 1767225600000
              [Shell.Deliver 0 sample_healthy;
               Shell.Deliver 0 (Resolved (mkResponse 200 (inr sample_payload)));
               Shell.SlideNumPoints (of_Z 5)] eq_refl eq_refl)
    as (_ & _ & _ & _ & _ & _ & _ & _ & H).
  exact H.
Defined.
